(** * Apple toolchain resolver ([env_apple.py])

    A shallow embedding of [init_machine_config] and of the four static
    tables it consults, followed by the properties of the resolver that
    its specification states.

    Python values are embedded as follows.
    - [str] is [string]; a character is a code point below 256.
    - [dict] with string keys is a [gmap string _]; [d[k]] on a missing
      key raises [KeyError], [d.get(k, v)] does not.
    - [pathlib.Path] (POSIX flavour, the only one on a host that has
      [xcrun]) is a root together with its list of components.
    - the outcome of a call is a pair of the configuration sink as the
      call leaves it and either the raised exception or the returned
      value, so that what was written before a failure stays visible. *)

From Stdlib Require Import Ascii String List.
From stdpp Require Import base option list strings gmap fin_maps.

Import ListNotations.

(** ** Python strings *)

Module Py.

Definition dquote : ascii := "034"%char.
Definition squote : ascii := "039"%char.
Definition backslash : ascii := "092"%char.

(** [str.isspace] on the code points below 256. *)
Definition isspace (c : ascii) : bool :=
  let n := nat_of_ascii c in
  ((9 <=? n) && (n <=? 13)) || ((28 <=? n) && (n <=? 32))
  || (n =? 133) || (n =? 160).

Fixpoint lstrip (s : string) : string :=
  match s with
  | String c s' => if isspace c then lstrip s' else s
  | EmptyString => EmptyString
  end.

Definition rstrip (s : string) : string :=
  String.rev (lstrip (String.rev s)).

(** [s.strip()] *)
Definition strip (s : string) : string := rstrip (lstrip s).

(** [s.startswith(p)] *)
Definition startswith (p s : string) : bool := String.prefix p s.

(** [s[1:]] *)
Definition tail (s : string) : string :=
  match s with
  | String _ s' => s'
  | EmptyString => EmptyString
  end.

Fixpoint contains (c : ascii) (s : string) : bool :=
  match s with
  | String d s' => if Ascii.eqb c d then true else contains c s'
  | EmptyString => false
  end.

Definition hex_digit (n : nat) : ascii :=
  nth n (list_ascii_of_string "0123456789abcdef") "0"%char.

(** [str.isprintable] on the code points below 256. *)
Definition isprintable (c : ascii) : bool :=
  let n := nat_of_ascii c in
  (32 <=? n) && negb ((127 <=? n) && (n <=? 160)) && negb (n =? 173).

Definition repr_char (quote c : ascii) : string :=
  if Ascii.eqb c quote || Ascii.eqb c backslash
  then String backslash (String c EmptyString)
  else if Ascii.eqb c "009"%char then String backslash "t"
  else if Ascii.eqb c "010"%char then String backslash "n"
  else if Ascii.eqb c "013"%char then String backslash "r"
  else if isprintable c then String c EmptyString
  else let n := nat_of_ascii c in
       String backslash
         (String "x" (String (hex_digit (n / 16))
                        (String (hex_digit (n mod 16)) EmptyString))).

Fixpoint repr_body (quote : ascii) (s : string) : string :=
  match s with
  | String c s' => repr_char quote c +:+ repr_body quote s'
  | EmptyString => EmptyString
  end.

(** [repr(s)]: single quotes, unless the text has a single quote and
    no double quote. *)
Definition repr (s : string) : string :=
  let quote :=
    if contains squote s && negb (contains dquote s)
    then dquote else squote in
  String quote (repr_body quote s +:+ String quote EmptyString).

Fixpoint split_go (sep : ascii) (cur : string) (s : string) : list string :=
  match s with
  | String c s' =>
      if Ascii.eqb c sep
      then String.rev cur :: split_go sep EmptyString s'
      else split_go sep (String c cur) s'
  | EmptyString => [String.rev cur]
  end.

(** [s.split(sep)] *)
Definition split (sep : ascii) (s : string) : list string :=
  split_go sep EmptyString s.

(** [str(l)] for a list of strings. *)
Definition str_list (l : list string) : string :=
  "[" +:+ String.concat ", " (map repr l) +:+ "]".

End Py.

(** ** [pathlib.Path] *)

Record Path := mkPath { root : string; parts : list string }.

Module PurePath.

Fixpoint leading (sep : ascii) (s : string) : nat :=
  match s with
  | String c s' => if Ascii.eqb c sep then S (leading sep s') else 0
  | EmptyString => 0
  end.

Definition is_part (seg : string) : bool :=
  negb (String.eqb seg "") && negb (String.eqb seg ".").

(** [Path(s)]: exactly two leading slashes are kept as a root of their
    own, empty and [.] components are dropped. *)
Definition of_str (s : string) : Path :=
  {| root := match leading "/" s with
             | 0 => ""
             | 2 => "//"
             | _ => "/"
             end;
     parts := filter (fun seg => is_part seg = true) (Py.split "/" s) |}.

(** [str(p)] *)
Definition to_str (p : Path) : string :=
  match parts p with
  | [] => if String.eqb (root p) "" then "." else root p
  | _ => root p +:+ String.concat "/" (parts p)
  end.

(** [p / seg] *)
Definition div (p : Path) (seg : string) : Path :=
  let q := of_str seg in
  if String.eqb (root q) ""
  then {| root := root p; parts := parts p ++ parts q |}
  else q.

(** [p.parent] *)
Definition parent (p : Path) : Path :=
  match parts p with
  | [] => p
  | _ => {| root := root p; parts := removelast (parts p) |}
  end.

End PurePath.

Infix "</>" := PurePath.div (at level 40, left associativity).

(** ** Python dictionaries and exceptions *)

Inductive exn : Type :=
| KeyError (key : string)
| AttributeError (attr : string).

(** A dictionary display [{k1: v1, ...}]: later pairs win. *)
Definition dict_of {V : Type} (l : list (string * V)) : gmap string V :=
  foldl (fun d kv => <[kv.1 := kv.2]> d) ∅ l.

(** Sequencing of steps that may raise. *)
Global Instance exn_bind : MBind (sum exn) := fun A B k r =>
  match r with
  | inr a => k a
  | inl e => inl e
  end.

(** [d[k]] *)
Definition getitem {V : Type} (d : gmap string V) (k : string) : exn + V :=
  match d !! k with
  | Some v => inr v
  | None => inl (KeyError k)
  end.

(** [d.get(k, v)] *)
Definition dict_get {V : Type} (d : gmap string V) (k : string) (v : V) : V :=
  default v (d !! k).

(** [d.update(other)] *)
Definition dict_update {V : Type} (d other : gmap string V) : gmap string V :=
  other ∪ d.

(** ** The static tables *)

Definition APPLE_SDKS : gmap string string := dict_of [
  ("macos",             "macosx");
  ("ios",               "iphoneos");
  ("ios-simulator",     "iphonesimulator");
  ("watchos",           "watchos");
  ("watchos-simulator", "watchsimulator");
  ("tvos",              "appletvos");
  ("tvos-simulator",    "appletvsimulator")
].

Definition APPLE_CLANG_ARCHS : gmap string string := dict_of [
  ("x86",        "i386");
  ("arm",        "armv7");
  ("arm64eoabi", "arm64e")
].

Definition APPLE_MINIMUM_OS_VERSIONS : gmap string string := dict_of [
  ("macos",        "10.9");
  ("macos-arm64",  "11.0");
  ("macos-arm64e", "11.0");
  ("ios",          "8.0");
  ("watchos",      "9.0");
  ("tvos",         "13.0")
].

(** An entry [(identifier, tool_name, *rest)] of [APPLE_BINARIES]:
    [rest] holds what the tuple has after its second component. *)
Record binary := mkBinary {
  identifier : string;
  tool_name : string;
  rest : list (list string)
}.

Definition APPLE_BINARIES : list binary := [
  mkBinary "c"                 "clang"             [];
  mkBinary "cpp"               "clang++"           [["-stdlib=libc++"]];
  mkBinary "objc"              "#c"                [];
  mkBinary "objcpp"            "#cpp"              [];

  mkBinary "ar"                "ar"                [];
  mkBinary "nm"                "llvm-nm"           [];
  mkBinary "ranlib"            "ranlib"            [];
  mkBinary "strip"             "strip"             [["-Sx"]];
  mkBinary "libtool"           "libtool"           [];

  mkBinary "install_name_tool" "install_name_tool" [];
  mkBinary "otool"             "otool"             [];
  mkBinary "codesign"          "codesign"          [];
  mkBinary "lipo"              "lipo"              []
].

(** ** The collaborators *)

(** The fields of [MachineSpec] that the resolver reads. *)
Record MachineSpec := mkMachine {
  os : string;
  arch : string;
  config : option string
}.

(** Modelled from the spec: the class [MachineSpec] of [machine_spec.py]
    is not part of the sources at hand; its two derived lookup keys are
    the OS joined by a dash with the configuration suffix, when there is
    one, and the OS joined by a dash with the architecture. *)
Definition os_dash_config (m : MachineSpec) : string :=
  match config m with
  | Some c => os m +:+ "-" +:+ c
  | None => os m
  end.

Definition os_dash_arch (m : MachineSpec) : string :=
  os m +:+ "-" +:+ arch m.

(** What the host answers. It has [xcrun]: each of the two queries runs
    and yields its standard output as decoded text, whatever its exit
    status. [path_exists] tells which paths exist. *)
Record Host := mkHost {
  xcrun_show_sdk_path : string -> string;
  xcrun_find : string -> string -> string;
  path_exists : Path -> bool
}.

(** The sink: a [ConfigParser] seen as what the resolver needs of it, a
    mapping of section names to mappings of options to values in which
    [config[name] = d] replaces section [name] by [d] and always goes
    through. The order of the keys of a dictionary is not kept. *)
Abbreviation Section_ := (gmap string string).
Abbreviation ConfigParser := (gmap string (gmap string string)).

(** ** Outcomes: the sink threaded through, and an exception or a value *)

Definition Run (A : Type) : Type :=
  ConfigParser -> ConfigParser * (exn + A).

Definition ret {A : Type} (a : A) : Run A := fun cfg => (cfg, inr a).

Definition bind {A B : Type} (m : Run A) (k : A -> Run B) : Run B :=
  fun cfg =>
    match m cfg with
    | (cfg', inr a) => k a cfg'
    | (cfg', inl e) => (cfg', inl e)
    end.

(** A computation that leaves the sink alone. *)
Definition lift {A : Type} (r : exn + A) : Run A := fun cfg => (cfg, r).

(** [config[name] = d] *)
Definition set_section (name : string) (d : Section_) : Run unit :=
  fun cfg => (<[name := d]> cfg, inr tt).

Global Instance run_ret : MRet Run := @ret.
Global Instance run_bind : MBind Run := fun A B k m => bind m k.

(** ** The resolver *)

Section Resolver.

(** [strv_to_meson] of [machine_file.py], which renders a list of
    flags as an array of the build system's language, and the type of
    the [call_selected_meson] argument. *)
Variable strv_to_meson : list string -> string.
Variable Callable : Type.

(** [subprocess.run(["xcrun", "--sdk", sdk_name, "--show-sdk-path"],
    ...).stdout.strip()] *)
Definition sdk_path_of (host : Host) (sdk_name : string) : string :=
  Py.strip (xcrun_show_sdk_path host sdk_name).

(** [subprocess.run(["xcrun", "--sdk", sdk_name, "-f", tool_name],
    ...).stdout.strip()] *)
Definition tool_path (host : Host) (sdk_name tool : string) : string :=
  Py.strip (xcrun_find host sdk_name tool).

(** One turn of the loop over [APPLE_BINARIES], on the local
    variables [binaries] and [clang_path]. *)
Definition resolve_binary (host : Host) (sdk_name : string)
    (st : Section_ * option Path) (entry : binary)
    : exn + (Section_ * option Path) :=
  let '(binaries, clang_path) := st in
  if Py.startswith "#" (tool_name entry) then
    v ← getitem binaries (Py.tail (tool_name entry));
    inr (<[identifier entry := v]> binaries, clang_path)
  else
    let path := tool_path host sdk_name (tool_name entry) in
    let clang_path :=
      if String.eqb (tool_name entry) "clang"
      then Some (PurePath.of_str path) else clang_path in
    let argv := [path] in
    let argv := match rest entry with
                | [] => argv
                | flags :: _ => argv ++ flags
                end in
    let raw_val := Py.str_list argv in
    let raw_val :=
      if String.eqb (identifier entry) "c"
         || String.eqb (identifier entry) "cpp"
      then raw_val +:+ " + common_flags" else raw_val in
    inr (<[identifier entry := raw_val]> binaries, clang_path).

Fixpoint resolve_binaries (host : Host) (sdk_name : string)
    (st : Section_ * option Path) (entries : list binary)
    : exn + (Section_ * option Path) :=
  match entries with
  | [] => inr st
  | entry :: entries' =>
      st' ← resolve_binary host sdk_name st entry;
      resolve_binaries host sdk_name st' entries'
  end.

(** The minimum OS version: the default handed to [get] is computed
    first, whether or not it is going to be used. *)
Definition minimum_os_version (machine : MachineSpec) : exn + string :=
  fallback ← getitem APPLE_MINIMUM_OS_VERSIONS (os machine);
  inr (dict_get APPLE_MINIMUM_OS_VERSIONS (os_dash_arch machine) fallback).

Definition target_triple (machine : MachineSpec) (os_minver : string)
    : string :=
  let clang_arch :=
    dict_get APPLE_CLANG_ARCHS (arch machine) (arch machine) in
  let target :=
    clang_arch +:+ "-apple-" +:+ os machine +:+ os_minver in
  match config machine with
  | Some c => target +:+ "-" +:+ c
  | None => target
  end.

(** The linker flags; [clang_path.parent] raises when [clang_path] is
    still [None]. *)
Definition linker_flags_of (host : Host) (clang_path : option Path)
    : exn + list string :=
  let linker_flags := ["-Wl,-dead_strip"] in
  match clang_path with
  | None => inl (AttributeError "parent")
  | Some clang =>
      if path_exists host (PurePath.parent clang </> "ld-classic")
      then inr (linker_flags ++ ["-Wl,-ld_classic"])
      else inr linker_flags
  end.

Definition cxx_constants (sdk_prefix : Path) : Section_ := dict_of [
  ("cxx_like_flags", strv_to_meson [
     "-nostdinc++";
     "-isystem" +:+ PurePath.to_str (sdk_prefix </> "include" </> "c++")
   ]);
  ("cxx_link_flags", strv_to_meson [
     "-nostdlib++";
     "-L" +:+ PurePath.to_str (sdk_prefix </> "lib" </> "c++");
     "-lc++";
     "-lc++abi"
   ])
].

Definition constants_of (host : Host) (machine : MachineSpec)
    (sdk_prefix : option Path) (target sdk_path : string)
    (linker_flags : list string) : Section_ :=
  let constants := dict_of [
    ("common_flags", strv_to_meson [
       "-target"; target;
       "-isysroot"; sdk_path
     ]);
    ("c_like_flags", strv_to_meson []);
    ("linker_flags", strv_to_meson linker_flags)
  ] in
  match sdk_prefix with
  | Some prefix =>
      if path_exists host (prefix </> "lib" </> "c++" </> "libc++.a")
         && negb (String.eqb (os machine) "watchos")
      then dict_update constants (cxx_constants prefix)
      else constants
  | None => constants
  end.

Definition built_in_options : Section_ := dict_of [
  ("c_args",           "c_like_flags");
  ("cpp_args",         "c_like_flags + cxx_like_flags");
  ("objc_args",        "c_like_flags");
  ("objcpp_args",      "c_like_flags + cxx_like_flags");
  ("c_link_args",      "linker_flags");
  ("cpp_link_args",    "linker_flags + cxx_link_flags");
  ("objc_link_args",   "linker_flags");
  ("objcpp_link_args", "linker_flags + cxx_link_flags");
  ("b_lundef",         "true")
].

Definition init_machine_config (host : Host)
    (machine : MachineSpec) (sdk_prefix : option Path)
    (native_machine : MachineSpec) (is_cross_build : bool)
    (call_selected_meson : Callable)
    : Run (list string * gmap string string) :=
  let machine_path : list string := [] in
  let machine_env : gmap string string := ∅ in

  sdk_name ← lift (getitem APPLE_SDKS (os_dash_config machine));
  let sdk_path := sdk_path_of host sdk_name in

  '(binaries, clang_path) ←
    lift (resolve_binaries host sdk_name (∅, None) APPLE_BINARIES);
  set_section "binaries" binaries;;

  os_minver ← lift (minimum_os_version machine);
  let target := target_triple machine os_minver in

  linker_flags ← lift (linker_flags_of host clang_path);

  set_section "constants"
    (constants_of host machine sdk_prefix target sdk_path linker_flags);;

  set_section "built-in options" built_in_options;;

  mret (machine_path, machine_env).

End Resolver.

Arguments init_machine_config strv_to_meson {Callable} host machine
  sdk_prefix native_machine is_cross_build call_selected_meson cfg : rename.

(** ** Notions the properties are stated with *)

(** What the sink holds for option [key] of section [name], if anything. *)
Definition option_of (cfg : ConfigParser) (name key : string)
    : option string :=
  sect ← cfg !! name; sect !! key.

(** The OS component of a key of the SDK table: what stands before its
    first dash. *)
Definition os_component (key : string) : string :=
  hd "" (Py.split "-" key).

(** The constants an expression of the build system's language names:
    its operands, between the [+] signs. *)
Definition operands (expr : string) : list string :=
  map Py.strip (Py.split "+" expr).

(** The three conditions under which the overlay's static C++ runtime
    is used. *)
Definition overlay_has_libcxx (host : Host) (machine : MachineSpec)
    (sdk_prefix : option Path) : Prop :=
  exists prefix,
    sdk_prefix = Some prefix
    /\ path_exists host (prefix </> "lib" </> "c++" </> "libc++.a") = true
    /\ os machine <> "watchos".

(** The invocation string as the specification words it: the path, with
    the composition token appended for the two compiler roles, followed
    by the extra flags, all joined by spaces. *)
Definition space_joined_invocation (path : string) (entry : binary)
    : string :=
  let head_ :=
    if String.eqb (identifier entry) "c"
       || String.eqb (identifier entry) "cpp"
    then path +:+ " + common_flags" else path in
  String.concat " " (head_ :: match rest entry with
                              | [] => []
                              | flags :: _ => flags
                              end).

(** ** Concrete collaborators, for running the resolver *)

(** Modelled from the spec: [strv_to_meson] of [machine_file.py] is not
    part of the sources at hand; it turns a sequence of strings into the
    array literal of the build system, every element between single
    quotes. *)
Definition meson_array (strv : list string) : string :=
  "[" +:+ String.concat ", " (map (fun s => "'" +:+ s +:+ "'") strv) +:+ "]".

Definition newline : string := String "010"%char EmptyString.

(** A host whose tools live in [/usr/bin], whose SDKs live in [/sdk],
    and where the only files known to exist are the classic linker next
    to [clang] and the static C++ runtime under [/opt/overlay]. *)
Definition xcode_host : Host := {|
  xcrun_show_sdk_path := fun sdk_name => "/sdk/" +:+ sdk_name +:+ newline;
  xcrun_find := fun _ tool => "/usr/bin/" +:+ tool +:+ newline;
  path_exists := fun p =>
    String.eqb (PurePath.to_str p) "/usr/bin/ld-classic"
    || String.eqb (PurePath.to_str p) "/opt/overlay/lib/c++/libc++.a"
|}.

Definition macos_arm64 : MachineSpec := mkMachine "macos" "arm64" None.
Definition ios_arm64_simulator : MachineSpec :=
  mkMachine "ios" "arm64" (Some "simulator").
Definition watchos_arm64 : MachineSpec := mkMachine "watchos" "arm64" None.

(** A descriptor whose OS already carries the suffix: its key is in the
    SDK table, its OS is not in the table of minimum versions. *)
Definition ios_simulator_as_os : MachineSpec :=
  mkMachine "ios-simulator" "arm64" None.

Definition linux_x86_64 : MachineSpec := mkMachine "linux" "x86_64" None.

Definition overlay : Path := PurePath.of_str "/opt/overlay".

(** The resolver on the concrete host, with [meson_array] as serializer
    and no callable. *)
Definition run_on_xcode_host (machine : MachineSpec)
    (sdk_prefix : option Path) : Run (list string * gmap string string) :=
  init_machine_config meson_array xcode_host machine sdk_prefix
    machine false tt.

(** ** Further notions *)

(** The ordering rule of a toolchain binary list: every alias names a
    role that [known] has or that an earlier entry declares. *)
Fixpoint aliases_follow_roles (known : list string) (entries : list binary)
    : bool :=
  match entries with
  | [] => true
  | entry :: entries' =>
      (if Py.startswith "#" (tool_name entry)
       then existsb (String.eqb (Py.tail (tool_name entry))) known
       else true)
      && aliases_follow_roles (identifier entry :: known) entries'
  end.

(** The minimum OS version as the specification words it: the
    OS-dash-arch key first, and the OS alone only when that one is
    missing. *)
Definition two_level_lookup (machine : MachineSpec) : exn + string :=
  match APPLE_MINIMUM_OS_VERSIONS !! os_dash_arch machine with
  | Some os_minver => inr os_minver
  | None => getitem APPLE_MINIMUM_OS_VERSIONS (os machine)
  end.

(** A character that [repr] prints as it is between single quotes. *)
Definition plain_char (c : ascii) : bool :=
  Py.isprintable c
  && negb (Ascii.eqb c Py.squote) && negb (Ascii.eqb c Py.backslash).

Fixpoint plain (s : string) : bool :=
  match s with
  | String c s' => plain_char c && plain s'
  | EmptyString => true
  end.

(** A host like [xcode_host] for what the resolver asks, and different
    for what it does not ask: the alias names and a tool outside the
    list. *)
Definition other_host : Host := {|
  xcrun_show_sdk_path := xcrun_show_sdk_path xcode_host;
  xcrun_find := fun sdk_name tool =>
    if Py.startswith "#" tool || String.eqb tool "swiftc"
    then "/nowhere/" +:+ tool
    else xcrun_find xcode_host sdk_name tool;
  path_exists := fun p =>
    path_exists xcode_host p
    || String.eqb (PurePath.to_str p) "/usr/bin/ld64"
|}.

(** A host on which [xcrun] prints nothing but a line end. *)
Definition silent_host : Host := {|
  xcrun_show_sdk_path := fun _ => newline;
  xcrun_find := fun _ _ => newline;
  path_exists := fun p => String.eqb (PurePath.to_str p) "ld-classic"
|}.

(** * Properties *)

(** ** The embedding on small inputs *)

Example of_str_absolute :
  PurePath.of_str "/usr/bin/clang" = mkPath "/" ["usr"; "bin"; "clang"].
Proof. reflexivity. Qed.

Example parent_of_bare_name :
  PurePath.to_str (PurePath.parent (PurePath.of_str "clang")) = ".".
Proof. reflexivity. Qed.

Example div_overlay :
  PurePath.to_str (overlay </> "lib" </> "c++" </> "libc++.a")
  = "/opt/overlay/lib/c++/libc++.a".
Proof. reflexivity. Qed.

Example strip_newline :
  Py.strip ("  /usr/bin/clang" +:+ newline) = "/usr/bin/clang".
Proof. reflexivity. Qed.

Example str_list_two :
  Py.str_list ["/usr/bin/clang++"; "-stdlib=libc++"]
  = "['/usr/bin/clang++', '-stdlib=libc++']".
Proof. reflexivity. Qed.

Example repr_single_quote :
  Py.repr "it's" = String Py.dquote ("it's" +:+ String Py.dquote "").
Proof. reflexivity. Qed.

Example repr_backslash_and_tab :
  Py.repr ("a\b" +:+ String "009"%char "") = "'a\\b\t'".
Proof. reflexivity. Qed.

Example triple_ios_arm :
  minimum_os_version (mkMachine "ios" "arm" None) = inr "8.0"
  /\ target_triple (mkMachine "ios" "arm" None) "8.0" = "armv7-apple-ios8.0".
Proof. split; vm_compute; reflexivity. Qed.

Example watchos_overlay_has_no_cxx_constants :
  overlay_has_libcxx xcode_host ios_arm64_simulator (Some overlay)
  /\ option_of (run_on_xcode_host watchos_arm64 (Some overlay) ∅).1
       "constants" "cxx_like_flags" = None
  /\ option_of (run_on_xcode_host watchos_arm64 (Some overlay) ∅).1
       "constants" "cxx_link_flags" = None
  /\ option_of (run_on_xcode_host watchos_arm64 (Some overlay) ∅).1
       "constants" "linker_flags"
     = Some "['-Wl,-dead_strip', '-Wl,-ld_classic']".
Proof.
  split.
  - exists overlay. split; [reflexivity|].
    split; [vm_compute; reflexivity | discriminate].
  - vm_compute. repeat split; reflexivity.
Qed.

Example triple_with_suffix :
  target_triple (mkMachine "macos" "arm64" (Some "foo")) "11.0"
  = "arm64-apple-macos11.0-foo".
Proof. vm_compute. reflexivity. Qed.

(** ** Strings and dictionaries *)

Lemma append_assoc (a b c : string) : (a +:+ b) +:+ c = a +:+ (b +:+ c).
Proof.
  induction a as [|ch a IH]; [reflexivity|].
  change ((String ch a +:+ b) +:+ c) with (String ch ((a +:+ b) +:+ c)).
  rewrite IH. reflexivity.
Qed.

Lemma getitem_Some {V : Type} (d : gmap string V) (k : string) (v : V) :
  d !! k = Some v -> getitem d k = inr v.
Proof. unfold getitem. intros ->. reflexivity. Qed.

Lemma getitem_None {V : Type} (d : gmap string V) (k : string) :
  d !! k = None -> getitem d k = inl (KeyError k).
Proof. unfold getitem. intros ->. reflexivity. Qed.

(** A lookup in a chain of insertions under literal keys. *)
Ltac lookup_literal :=
  repeat (rewrite lookup_insert_ne by discriminate);
  first [ rewrite lookup_insert_eq | rewrite lookup_empty ].

(** ** The loop over the toolchain binary list *)

Section Loop.

Variable host : Host.
Variable sdk_name : string.

Lemma resolve_binary_alias (b : Section_) (cp : option Path) (e : binary)
    (v : string) :
  Py.startswith "#" (tool_name e) = true ->
  b !! Py.tail (tool_name e) = Some v ->
  resolve_binary host sdk_name (b, cp) e = inr (<[identifier e := v]> b, cp).
Proof.
  intros Hs Hv. unfold resolve_binary.
  rewrite Hs, (getitem_Some _ _ _ Hv). reflexivity.
Qed.

Lemma resolve_binary_tool (b : Section_) (cp : option Path) (e : binary) :
  Py.startswith "#" (tool_name e) = false ->
  resolve_binary host sdk_name (b, cp) e =
  inr (<[identifier e :=
          let raw_val :=
            Py.str_list (tool_path host sdk_name (tool_name e) ::
                           match rest e with
                           | [] => []
                           | flags :: _ => flags
                           end) in
          if String.eqb (identifier e) "c" || String.eqb (identifier e) "cpp"
          then raw_val +:+ " + common_flags" else raw_val]> b,
       if String.eqb (tool_name e) "clang"
       then Some (PurePath.of_str (tool_path host sdk_name (tool_name e)))
       else cp).
Proof.
  intros Hs. unfold resolve_binary. rewrite Hs.
  destruct (rest e); reflexivity.
Qed.

Lemma resolve_binaries_cons (st : Section_ * option Path) (e : binary)
    (es : list binary) :
  resolve_binaries host sdk_name st (e :: es) =
  resolve_binary host sdk_name st e
    ≫= fun st' => resolve_binaries host sdk_name st' es.
Proof. reflexivity. Qed.

(** One entry of the list: a tool is looked up, an alias is copied from
    what the earlier entries recorded. *)
Ltac resolve_step :=
  rewrite resolve_binaries_cons;
  first
    [ rewrite resolve_binary_tool by reflexivity
    | erewrite resolve_binary_alias by
        first [ reflexivity
              | cbn [Py.tail tool_name]; lookup_literal; reflexivity ] ];
  cbn [mbind exn_bind identifier tool_name rest
       String.eqb Ascii.eqb Bool.eqb orb].

(** The loop never raises on the static list; it leaves the compiler's
    path set, every tool's invocation recorded under its role, and each
    alias role holding what the role it names holds. *)
Lemma resolve_binaries_APPLE_BINARIES :
  exists b : Section_,
    resolve_binaries host sdk_name (∅, None) APPLE_BINARIES
    = inr (b, Some (PurePath.of_str (tool_path host sdk_name "clang")))
    /\ (forall e : binary,
          In e APPLE_BINARIES ->
          Py.startswith "#" (tool_name e) = false ->
          b !! identifier e =
          Some (let raw_val :=
                  Py.str_list (tool_path host sdk_name (tool_name e) ::
                                 match rest e with
                                 | [] => []
                                 | flags :: _ => flags
                                 end) in
                if String.eqb (identifier e) "c"
                   || String.eqb (identifier e) "cpp"
                then raw_val +:+ " + common_flags" else raw_val))
    /\ (is_Some (b !! "c") /\ b !! "objc" = b !! "c")
    /\ (is_Some (b !! "cpp") /\ b !! "objcpp" = b !! "cpp").
Proof.
  eexists. split.
  { unfold APPLE_BINARIES. do 13 resolve_step. reflexivity. }
  split.
  { intros e Hin Htool. cbn [In APPLE_BINARIES] in Hin.
    repeat (destruct Hin as [<- | Hin]; [| ]); try contradiction;
      try discriminate Htool;
      cbn [identifier tool_name rest String.eqb Ascii.eqb Bool.eqb orb];
      lookup_literal; reflexivity. }
  split; (split; [eexists |]); lookup_literal; try reflexivity.
  all: symmetry; lookup_literal; reflexivity.
Qed.

End Loop.

(** ** The three ways a call ends *)

Section Calls.

Variable strv_to_meson : list string -> string.
Variable Callable : Type.
Variable host : Host.

Implicit Types (machine native_machine : MachineSpec).
Implicit Types (sdk_prefix : option Path) (is_cross_build : bool).
Implicit Types (call_selected_meson : Callable) (cfg : ConfigParser).

(** The OS-dash-config key is not in the SDK table: [KeyError], and the
    sink is as it was. *)
Lemma init_machine_config_no_sdk machine sdk_prefix native_machine
    is_cross_build call_selected_meson cfg :
  APPLE_SDKS !! os_dash_config machine = None ->
  init_machine_config strv_to_meson host machine sdk_prefix native_machine
    is_cross_build call_selected_meson cfg
  = (cfg, inl (KeyError (os_dash_config machine))).
Proof.
  intros Hsdk. unfold init_machine_config, mbind, run_bind, bind, lift.
  rewrite (getitem_None _ _ Hsdk). reflexivity.
Qed.

(** The key is in the SDK table, the OS is not in the table of minimum
    versions: [KeyError], with the binaries already in the sink. *)
Lemma init_machine_config_no_minver machine sdk_prefix native_machine
    is_cross_build call_selected_meson cfg sdk_name :
  APPLE_SDKS !! os_dash_config machine = Some sdk_name ->
  APPLE_MINIMUM_OS_VERSIONS !! os machine = None ->
  exists b clang_path,
    resolve_binaries host sdk_name (∅, None) APPLE_BINARIES
    = inr (b, clang_path)
    /\ init_machine_config strv_to_meson host machine sdk_prefix
         native_machine is_cross_build call_selected_meson cfg
       = (<["binaries" := b]> cfg, inl (KeyError (os machine))).
Proof.
  intros Hsdk Hos.
  destruct (resolve_binaries_APPLE_BINARIES host sdk_name) as (b & Hb & _).
  exists b, (Some (PurePath.of_str (tool_path host sdk_name "clang"))).
  split; [exact Hb|].
  unfold init_machine_config, mbind, run_bind, bind, lift, set_section.
  rewrite (getitem_Some _ _ _ Hsdk), Hb.
  unfold minimum_os_version. rewrite (getitem_None _ _ Hos). reflexivity.
Qed.

(** Both lookups succeed: the call returns, with three sections set. *)
Lemma init_machine_config_returns machine sdk_prefix native_machine
    is_cross_build call_selected_meson cfg sdk_name fallback :
  APPLE_SDKS !! os_dash_config machine = Some sdk_name ->
  APPLE_MINIMUM_OS_VERSIONS !! os machine = Some fallback ->
  exists b linker_flags,
    resolve_binaries host sdk_name (∅, None) APPLE_BINARIES
    = inr (b, Some (PurePath.of_str (tool_path host sdk_name "clang")))
    /\ linker_flags_of host
         (Some (PurePath.of_str (tool_path host sdk_name "clang")))
       = inr linker_flags
    /\ init_machine_config strv_to_meson host machine sdk_prefix
         native_machine is_cross_build call_selected_meson cfg
       = (<["built-in options" := built_in_options]>
            (<["constants" :=
                 constants_of strv_to_meson host machine sdk_prefix
                   (target_triple machine
                      (dict_get APPLE_MINIMUM_OS_VERSIONS
                         (os_dash_arch machine) fallback))
                   (sdk_path_of host sdk_name) linker_flags]>
               (<["binaries" := b]> cfg)),
          inr ([], ∅)).
Proof.
  intros Hsdk Hos.
  destruct (resolve_binaries_APPLE_BINARIES host sdk_name) as (b & Hb & _).
  assert (exists lf,
    linker_flags_of host
      (Some (PurePath.of_str (tool_path host sdk_name "clang"))) = inr lf)
    as [lf Hlf].
  { unfold linker_flags_of. destruct (path_exists host _); eexists; reflexivity. }
  exists b, lf. split; [exact Hb|]. split; [exact Hlf|].
  unfold init_machine_config, mbind, run_bind, bind, lift, set_section.
  rewrite (getitem_Some _ _ _ Hsdk), Hb.
  unfold minimum_os_version. rewrite (getitem_Some _ _ _ Hos).
  cbn [mbind exn_bind]. rewrite Hlf. reflexivity.
Qed.

(** The same, with the sink named by what the call leaves. *)
Lemma init_machine_config_returns_pair machine sdk_prefix native_machine
    is_cross_build call_selected_meson cfg sdk_name fallback :
  APPLE_SDKS !! os_dash_config machine = Some sdk_name ->
  APPLE_MINIMUM_OS_VERSIONS !! os machine = Some fallback ->
  init_machine_config strv_to_meson host machine sdk_prefix native_machine
    is_cross_build call_selected_meson cfg
  = ((init_machine_config strv_to_meson host machine sdk_prefix
        native_machine is_cross_build call_selected_meson cfg).1,
     inr ([], ∅)).
Proof.
  intros Hsdk Hos.
  destruct (init_machine_config_returns machine sdk_prefix native_machine
              is_cross_build call_selected_meson cfg sdk_name fallback
              Hsdk Hos) as (b & lf & _ & _ & Hok).
  rewrite Hok. reflexivity.
Qed.

(** A call that returns found both keys. *)
Lemma init_machine_config_returned machine sdk_prefix native_machine
    is_cross_build call_selected_meson cfg cfg' r :
  init_machine_config strv_to_meson host machine sdk_prefix native_machine
    is_cross_build call_selected_meson cfg = (cfg', inr r) ->
  exists sdk_name fallback,
    APPLE_SDKS !! os_dash_config machine = Some sdk_name
    /\ APPLE_MINIMUM_OS_VERSIONS !! os machine = Some fallback.
Proof.
  intros Hrun.
  destruct (APPLE_SDKS !! os_dash_config machine) as [sdk_name|] eqn:Hsdk.
  - destruct (APPLE_MINIMUM_OS_VERSIONS !! os machine) as [fallback|] eqn:Hos.
    + eauto.
    + destruct (init_machine_config_no_minver machine sdk_prefix
                  native_machine is_cross_build call_selected_meson cfg
                  sdk_name Hsdk Hos) as (b & cp & _ & Hfail).
      rewrite Hfail in Hrun. discriminate Hrun.
  - rewrite (init_machine_config_no_sdk _ _ _ _ _ _ Hsdk) in Hrun.
    discriminate Hrun.
Qed.

End Calls.

(** ** The constants section *)

Section Constants.

Variable strv_to_meson : list string -> string.
Variable host : Host.

Lemma overlay_has_libcxx_dec (machine : MachineSpec)
    (sdk_prefix : option Path) :
  overlay_has_libcxx host machine sdk_prefix
  \/ ~ overlay_has_libcxx host machine sdk_prefix.
Proof.
  unfold overlay_has_libcxx. destruct sdk_prefix as [prefix|].
  - destruct (path_exists host (prefix </> "lib" </> "c++" </> "libc++.a"))
      eqn:Hfile.
    + destruct (String.eqb_spec (os machine) "watchos") as [Hos|Hos].
      * right. intros (p & [= <-] & _ & Hne). contradiction.
      * left. eauto.
    + right. intros (p & [= <-] & Hp & _). congruence.
  - right. intros (p & [=] & _).
Qed.

Lemma constants_of_with_libcxx (machine : MachineSpec) (prefix : Path)
    (target sdk_path : string) (linker_flags : list string) :
  overlay_has_libcxx host machine (Some prefix) ->
  constants_of strv_to_meson host machine (Some prefix) target sdk_path
    linker_flags
  = cxx_constants strv_to_meson prefix
    ∪ <["linker_flags" := strv_to_meson linker_flags]>
        (<["c_like_flags" := strv_to_meson []]>
           (<["common_flags" :=
                strv_to_meson ["-target"; target; "-isysroot"; sdk_path]]>
              ∅)).
Proof.
  intros (p & [= <-] & Hfile & Hos). unfold constants_of.
  rewrite Hfile. apply String.eqb_neq in Hos. rewrite Hos. reflexivity.
Qed.

Lemma constants_of_without_libcxx (machine : MachineSpec)
    (sdk_prefix : option Path) (target sdk_path : string)
    (linker_flags : list string) :
  ~ overlay_has_libcxx host machine sdk_prefix ->
  constants_of strv_to_meson host machine sdk_prefix target sdk_path
    linker_flags
  = <["linker_flags" := strv_to_meson linker_flags]>
      (<["c_like_flags" := strv_to_meson []]>
         (<["common_flags" :=
              strv_to_meson ["-target"; target; "-isysroot"; sdk_path]]>
            ∅)).
Proof.
  intros Hno. unfold constants_of. destruct sdk_prefix as [prefix|];
    [|reflexivity].
  destruct (path_exists host _) eqn:Hfile; [|reflexivity].
  destruct (String.eqb_spec (os machine) "watchos") as [Hos|Hos];
    [reflexivity|].
  exfalso. apply Hno. exists prefix. auto.
Qed.

(** The two C++ constants are both there or both missing. *)
Lemma constants_of_cxx (machine : MachineSpec) (sdk_prefix : option Path)
    (target sdk_path : string) (linker_flags : list string) :
  let constants :=
    constants_of strv_to_meson host machine sdk_prefix target sdk_path
      linker_flags in
  (overlay_has_libcxx host machine sdk_prefix
   /\ is_Some (constants !! "cxx_like_flags")
   /\ is_Some (constants !! "cxx_link_flags"))
  \/ (~ overlay_has_libcxx host machine sdk_prefix
      /\ constants !! "cxx_like_flags" = None
      /\ constants !! "cxx_link_flags" = None).
Proof.
  intros constants. subst constants.
  destruct (overlay_has_libcxx_dec machine sdk_prefix) as [Hyes|Hno].
  - left. split; [exact Hyes|].
    destruct Hyes as (prefix & -> & Hrest).
    rewrite constants_of_with_libcxx by (exists prefix; auto).
    split; eexists; apply lookup_union_Some_l;
      unfold cxx_constants, dict_of; cbn [foldl fst snd];
      lookup_literal; reflexivity.
  - right. split; [exact Hno|].
    rewrite constants_of_without_libcxx by exact Hno.
    split; lookup_literal; reflexivity.
Qed.

(** Three singletons make the set of three. *)
Lemma three_keys (a b c : string) :
  ({[a]} ∪ ({[b]} ∪ ({[c]} ∪ ∅)) : gset string) = {[c; b; a]}.
Proof.
  apply set_eq. intros x.
  rewrite !elem_of_union, !elem_of_singleton, elem_of_empty. tauto.
Qed.

(** The common flags carry the target triple and the SDK root. *)
Lemma constants_of_common_flags (machine : MachineSpec)
    (sdk_prefix : option Path) (target sdk_path : string)
    (linker_flags : list string) :
  constants_of strv_to_meson host machine sdk_prefix target sdk_path
    linker_flags !! "common_flags"
  = Some (strv_to_meson ["-target"; target; "-isysroot"; sdk_path]).
Proof.
  destruct (overlay_has_libcxx_dec machine sdk_prefix) as [Hyes|Hno].
  - destruct Hyes as (prefix & -> & Hrest).
    rewrite constants_of_with_libcxx by (exists prefix; auto).
    rewrite lookup_union_r.
    + lookup_literal. reflexivity.
    + unfold cxx_constants, dict_of. cbn [foldl fst snd].
      lookup_literal. reflexivity.
  - rewrite constants_of_without_libcxx by exact Hno.
    lookup_literal. reflexivity.
Qed.

End Constants.

(** ** The static tables *)

Lemma APPLE_SDKS_keys (key : string) :
  is_Some (APPLE_SDKS !! key) ->
  In key ["macos"; "ios"; "ios-simulator"; "watchos"; "watchos-simulator";
          "tvos"; "tvos-simulator"].
Proof.
  unfold APPLE_SDKS, dict_of. cbn [foldl fst snd]. intros [v Hv].
  repeat (rewrite lookup_insert in Hv;
          destruct (decide (_ = key)) as [<-|_]; [cbn [In]; tauto|]).
  rewrite lookup_empty in Hv. discriminate Hv.
Qed.

(** * The claims *)

Section Claims.

Variable strv_to_meson : list string -> string.
Variable Callable : Type.

Implicit Types (host : Host) (machine native_machine : MachineSpec).
Implicit Types (sdk_prefix : option Path) (is_cross_build : bool).
Implicit Types (call_selected_meson : Callable) (cfg : ConfigParser).

(** C1, as the code has it: for every call that returns, with or without
    an SDK overlay path, the options [cpp_args] and [objcpp_args] of the
    section "built-in options" are the fixed expression
    [c_like_flags + cxx_like_flags], whose operands are both constants. *)
Theorem C1_cpp_args_is_fixed host machine sdk_prefix native_machine
    is_cross_build call_selected_meson cfg cfg' r :
  init_machine_config strv_to_meson host machine sdk_prefix native_machine
    is_cross_build call_selected_meson cfg = (cfg', inr r) ->
  option_of cfg' "built-in options" "cpp_args"
  = Some "c_like_flags + cxx_like_flags"
  /\ option_of cfg' "built-in options" "objcpp_args"
     = Some "c_like_flags + cxx_like_flags"
  /\ operands "c_like_flags + cxx_like_flags"
     = ["c_like_flags"; "cxx_like_flags"].
Proof.
  intros Hrun.
  destruct (init_machine_config_returned _ _ _ _ _ _ _ _ _ _ _ Hrun)
    as (sdk_name & fallback & Hsdk & Hos).
  destruct (init_machine_config_returns strv_to_meson Callable host machine
              sdk_prefix native_machine is_cross_build call_selected_meson
              cfg sdk_name fallback Hsdk Hos)
    as (b & lf & _ & _ & Hok).
  rewrite Hok in Hrun. injection Hrun as <- _.
  unfold option_of. rewrite lookup_insert_eq. cbn [mbind option_bind].
  unfold built_in_options, dict_of. cbn [foldl fst snd].
  split; [|split].
  - lookup_literal. reflexivity.
  - lookup_literal. reflexivity.
  - reflexivity.
Qed.

(** C2: for every call that returns, the constants section holds both
    [cxx_like_flags] and [cxx_link_flags] exactly when an SDK overlay
    path is given, [<overlay>/lib/c++/libc++.a] exists and the OS is not
    [watchos]; when one of the three fails, it holds neither key. *)
Theorem C2_cxx_constants_iff_overlay host machine sdk_prefix native_machine
    is_cross_build call_selected_meson cfg cfg' r :
  init_machine_config strv_to_meson host machine sdk_prefix native_machine
    is_cross_build call_selected_meson cfg = (cfg', inr r) ->
  exists constants : Section_,
    cfg' !! "constants" = Some constants
    /\ (is_Some (constants !! "cxx_like_flags")
        /\ is_Some (constants !! "cxx_link_flags")
        <-> overlay_has_libcxx host machine sdk_prefix)
    /\ (~ overlay_has_libcxx host machine sdk_prefix ->
        constants !! "cxx_like_flags" = None
        /\ constants !! "cxx_link_flags" = None).
Proof.
  intros Hrun.
  destruct (init_machine_config_returned _ _ _ _ _ _ _ _ _ _ _ Hrun)
    as (sdk_name & fallback & Hsdk & Hos).
  destruct (init_machine_config_returns strv_to_meson Callable host machine
              sdk_prefix native_machine is_cross_build call_selected_meson
              cfg sdk_name fallback Hsdk Hos)
    as (b & lf & _ & _ & Hok).
  rewrite Hok in Hrun. injection Hrun as <- _.
  eexists. split; [lookup_literal; reflexivity|].
  destruct (constants_of_cxx strv_to_meson host machine sdk_prefix
              (target_triple machine
                 (dict_get APPLE_MINIMUM_OS_VERSIONS (os_dash_arch machine)
                    fallback))
              (sdk_path_of host sdk_name) lf)
    as [(Hyes & Hlike & Hlink)|(Hno & Hlike & Hlink)].
  - split; [tauto|]. intros Hno. contradiction.
  - split; [|auto]. split; [|contradiction].
    intros [Hsome _]. rewrite Hlike in Hsome. destruct Hsome; discriminate.
Qed.

(** C3, as the code has it: every call that returns sets three sections
    of the sink, "binaries", "constants" and "built-in options", leaves
    every other section as it was, and returns an empty list and an
    empty mapping. *)
Theorem C3_three_sections_and_empty_pair host machine sdk_prefix
    native_machine is_cross_build call_selected_meson cfg cfg' r :
  init_machine_config strv_to_meson host machine sdk_prefix native_machine
    is_cross_build call_selected_meson cfg = (cfg', inr r) ->
  r = ([], ∅)
  /\ dom cfg'
     = ({["binaries"; "constants"; "built-in options"]} : gset string)
       ∪ dom cfg
  /\ cfg' !! "built-in options" = Some built_in_options
  /\ (forall name : string,
        name <> "binaries" -> name <> "constants" ->
        name <> "built-in options" ->
        cfg' !! name = cfg !! name).
Proof.
  intros Hrun.
  destruct (init_machine_config_returned _ _ _ _ _ _ _ _ _ _ _ Hrun)
    as (sdk_name & fallback & Hsdk & Hos).
  destruct (init_machine_config_returns strv_to_meson Callable host machine
              sdk_prefix native_machine is_cross_build call_selected_meson
              cfg sdk_name fallback Hsdk Hos)
    as (b & lf & _ & _ & Hok).
  rewrite Hok in Hrun. injection Hrun as <- <-.
  split; [reflexivity|]. split; [|split].
  - rewrite !dom_insert_L. apply set_eq. intros name.
    rewrite !elem_of_union, !elem_of_singleton. tauto.
  - apply lookup_insert_eq.
  - intros name Hb Hc Ho. rewrite !lookup_insert_ne by congruence.
    reflexivity.
Qed.

(** C4, as the code has it: for every entry of the toolchain binary list
    that is not an alias, a call that gets past SDK identification
    records, under the entry's role, the text that Python prints for the
    list made of the resolved tool path followed by the entry's extra
    flags (brackets around, commas between, every element quoted), and
    for the roles [c] and [cpp] the text [ + common_flags] after it. *)
Theorem C4_invocation_is_printed_list host machine sdk_prefix
    native_machine is_cross_build call_selected_meson cfg sdk_name entry :
  APPLE_SDKS !! os_dash_config machine = Some sdk_name ->
  In entry APPLE_BINARIES ->
  Py.startswith "#" (tool_name entry) = false ->
  exists cfg' outcome,
    init_machine_config strv_to_meson host machine sdk_prefix native_machine
      is_cross_build call_selected_meson cfg = (cfg', outcome)
    /\ option_of cfg' "binaries" (identifier entry)
       = Some (let raw_val :=
                 Py.str_list
                   (tool_path host sdk_name (tool_name entry) ::
                      match rest entry with
                      | [] => []
                      | flags :: _ => flags
                      end) in
               if String.eqb (identifier entry) "c"
                  || String.eqb (identifier entry) "cpp"
               then raw_val +:+ " + common_flags" else raw_val).
Proof.
  intros Hsdk Hin Htool.
  destruct (resolve_binaries_APPLE_BINARIES host sdk_name)
    as (b & Hb & Htools & _).
  specialize (Htools entry Hin Htool).
  destruct (APPLE_MINIMUM_OS_VERSIONS !! os machine) as [fallback|] eqn:Hos.
  - destruct (init_machine_config_returns strv_to_meson Callable host
                machine sdk_prefix native_machine is_cross_build
                call_selected_meson cfg sdk_name fallback Hsdk Hos)
      as (b' & lf & Hb' & _ & Hok).
    rewrite Hb in Hb'. injection Hb' as <-.
    eexists _, _. split; [exact Hok|].
    unfold option_of. lookup_literal. exact Htools.
  - destruct (init_machine_config_no_minver strv_to_meson Callable host
                machine sdk_prefix native_machine is_cross_build
                call_selected_meson cfg sdk_name Hsdk Hos)
      as (b' & cp & Hb' & Hfail).
    rewrite Hb in Hb'. injection Hb' as <- _.
    eexists _, _. split; [exact Hfail|].
    unfold option_of. lookup_literal. exact Htools.
Qed.

(** C5: when the OS-dash-config key is not in the SDK table, the call
    raises [KeyError] and the sink is what it was; when the key is there
    and the OS is not in the table of minimum versions, the call raises
    [KeyError] with the sink holding the binaries section, and nothing
    else, on top of what it was. *)
Theorem C5_lookup_failures host machine sdk_prefix native_machine
    is_cross_build call_selected_meson cfg :
  (APPLE_SDKS !! os_dash_config machine = None ->
   init_machine_config strv_to_meson host machine sdk_prefix native_machine
     is_cross_build call_selected_meson cfg
   = (cfg, inl (KeyError (os_dash_config machine))))
  /\ (forall sdk_name : string,
        APPLE_SDKS !! os_dash_config machine = Some sdk_name ->
        APPLE_MINIMUM_OS_VERSIONS !! os machine = None ->
        exists (b : Section_) (clang_path : option Path),
          resolve_binaries host sdk_name (∅, None) APPLE_BINARIES
          = inr (b, clang_path)
          /\ init_machine_config strv_to_meson host machine sdk_prefix
               native_machine is_cross_build call_selected_meson cfg
             = (<["binaries" := b]> cfg, inl (KeyError (os machine)))).
Proof.
  split.
  - apply init_machine_config_no_sdk.
  - intros sdk_name Hsdk Hos.
    apply init_machine_config_no_minver; assumption.
Qed.

(** C6: every key of the SDK table has its OS component in the table of
    minimum versions; so for a target whose key is in the SDK table and
    whose OS is that component, the two-level lookup of the minimum
    version returns a version, whatever the architecture. *)
Theorem C6_sdk_keys_have_minimum_version :
  (forall key : string,
     is_Some (APPLE_SDKS !! key) ->
     is_Some (APPLE_MINIMUM_OS_VERSIONS !! os_component key))
  /\ (forall machine,
        is_Some (APPLE_SDKS !! os_dash_config machine) ->
        os machine = os_component (os_dash_config machine) ->
        exists os_minver, minimum_os_version machine = inr os_minver).
Proof.
  assert (forall key : string,
            is_Some (APPLE_SDKS !! key) ->
            is_Some (APPLE_MINIMUM_OS_VERSIONS !! os_component key)) as Hkeys.
  { intros key Hkey. apply APPLE_SDKS_keys in Hkey. cbn [In] in Hkey.
    repeat (destruct Hkey as [<-|Hkey]; [eexists; vm_compute; reflexivity|]).
    contradiction. }
  split; [exact Hkeys|].
  intros machine Hkey Hos. apply Hkeys in Hkey. rewrite <- Hos in Hkey.
  destruct Hkey as [fallback Hfallback]. unfold minimum_os_version.
  rewrite (getitem_Some _ _ _ Hfallback). eexists. reflexivity.
Qed.

(** C7: when the architecture is not in the alias table, the target
    triple starts with the architecture as it is, followed by [-apple-];
    and a call that returns has put that triple after [-target] in the
    common flags. *)
Theorem C7_unaliased_arch_leads_triple host machine sdk_prefix
    native_machine is_cross_build call_selected_meson cfg cfg' r :
  APPLE_CLANG_ARCHS !! arch machine = None ->
  init_machine_config strv_to_meson host machine sdk_prefix native_machine
    is_cross_build call_selected_meson cfg = (cfg', inr r) ->
  (forall os_minver : string,
     exists tail_ : string,
       target_triple machine os_minver
       = arch machine +:+ "-apple-" +:+ tail_)
  /\ exists (tail_ sdk_path : string),
       option_of cfg' "constants" "common_flags"
       = Some (strv_to_meson
                 ["-target"; arch machine +:+ "-apple-" +:+ tail_;
                  "-isysroot"; sdk_path]).
Proof.
  intros Harch Hrun.
  assert (forall os_minver : string,
            exists tail_ : string,
              target_triple machine os_minver
              = arch machine +:+ "-apple-" +:+ tail_) as Htriple.
  { intros os_minver. unfold target_triple, dict_get. rewrite Harch.
    cbn [default]. destruct (config machine) as [c|].
    - eexists. rewrite !append_assoc. reflexivity.
    - eexists. reflexivity. }
  split; [exact Htriple|].
  destruct (init_machine_config_returned _ _ _ _ _ _ _ _ _ _ _ Hrun)
    as (sdk_name & fallback & Hsdk & Hos).
  destruct (init_machine_config_returns strv_to_meson Callable host machine
              sdk_prefix native_machine is_cross_build call_selected_meson
              cfg sdk_name fallback Hsdk Hos)
    as (b & lf & _ & _ & Hok).
  rewrite Hok in Hrun. injection Hrun as <- _.
  destruct (Htriple (dict_get APPLE_MINIMUM_OS_VERSIONS
                       (os_dash_arch machine) fallback)) as [tail_ Htail].
  exists tail_, (sdk_path_of host sdk_name).
  unfold option_of. lookup_literal. cbn [mbind option_bind].
  rewrite constants_of_common_flags, Htail. reflexivity.
Qed.

(** C8: every call that gets past SDK identification leaves a binaries
    section in which role [objc] holds the very text role [c] holds, and
    role [objcpp] the very text role [cpp] holds. *)
Theorem C8_alias_roles_copy host machine sdk_prefix native_machine
    is_cross_build call_selected_meson cfg sdk_name :
  APPLE_SDKS !! os_dash_config machine = Some sdk_name ->
  exists cfg' outcome (b : Section_) (c_val cpp_val : string),
    init_machine_config strv_to_meson host machine sdk_prefix native_machine
      is_cross_build call_selected_meson cfg = (cfg', outcome)
    /\ cfg' !! "binaries" = Some b
    /\ b !! "c" = Some c_val /\ b !! "objc" = Some c_val
    /\ b !! "cpp" = Some cpp_val /\ b !! "objcpp" = Some cpp_val.
Proof.
  intros Hsdk.
  destruct (resolve_binaries_APPLE_BINARIES host sdk_name)
    as (b & Hb & _ & ([c_val Hc] & Hobjc) & ([cpp_val Hcpp] & Hobjcpp)).
  rewrite Hc in Hobjc. rewrite Hcpp in Hobjcpp.
  destruct (APPLE_MINIMUM_OS_VERSIONS !! os machine) as [fallback|] eqn:Hos.
  - destruct (init_machine_config_returns strv_to_meson Callable host
                machine sdk_prefix native_machine is_cross_build
                call_selected_meson cfg sdk_name fallback Hsdk Hos)
      as (b' & lf & Hb' & _ & Hok).
    rewrite Hb in Hb'. injection Hb' as <-.
    eexists _, _, b, c_val, cpp_val. split; [exact Hok|].
    split; [lookup_literal; reflexivity|]. auto.
  - destruct (init_machine_config_no_minver strv_to_meson Callable host
                machine sdk_prefix native_machine is_cross_build
                call_selected_meson cfg sdk_name Hsdk Hos)
      as (b' & cp & Hb' & Hfail).
    rewrite Hb in Hb'. injection Hb' as <- _.
    eexists _, _, b, c_val, cpp_val. split; [exact Hfail|].
    split; [lookup_literal; reflexivity|]. auto.
Qed.

(** C9: for OS [macos], architecture [arm64], no configuration suffix
    and no SDK overlay, on any host and any sink, the call returns, the
    target triple is [arm64-apple-macos11.0], it is what the common
    flags carry, and the keys of the constants section are exactly
    [common_flags], [c_like_flags] and [linker_flags]. *)
Theorem C9_macos_arm64 host native_machine is_cross_build
    call_selected_meson cfg :
  minimum_os_version macos_arm64 = inr "11.0"
  /\ target_triple macos_arm64 "11.0" = "arm64-apple-macos11.0"
  /\ exists cfg' (constants : Section_),
       init_machine_config strv_to_meson host macos_arm64 None
         native_machine is_cross_build call_selected_meson cfg
       = (cfg', inr ([], ∅))
       /\ cfg' !! "constants" = Some constants
       /\ dom constants
          = ({["common_flags"; "c_like_flags"; "linker_flags"]}
             : gset string)
       /\ constants !! "common_flags"
          = Some (strv_to_meson
                    ["-target"; "arm64-apple-macos11.0";
                     "-isysroot"; sdk_path_of host "macosx"]).
Proof.
  assert (minimum_os_version macos_arm64 = inr "11.0") as Hminver
    by (vm_compute; reflexivity).
  assert (target_triple macos_arm64 "11.0" = "arm64-apple-macos11.0")
    as Htriple by (vm_compute; reflexivity).
  split; [exact Hminver|]. split; [exact Htriple|].
  assert (APPLE_SDKS !! os_dash_config macos_arm64 = Some "macosx") as Hsdk
    by (vm_compute; reflexivity).
  assert (APPLE_MINIMUM_OS_VERSIONS !! os macos_arm64 = Some "10.9") as Hos
    by (vm_compute; reflexivity).
  destruct (init_machine_config_returns strv_to_meson Callable host
              macos_arm64 None native_machine is_cross_build
              call_selected_meson cfg "macosx" "10.9" Hsdk Hos)
    as (b & lf & _ & _ & Hok).
  assert (dict_get APPLE_MINIMUM_OS_VERSIONS (os_dash_arch macos_arm64)
            "10.9" = "11.0") as Hget by (vm_compute; reflexivity).
  rewrite Hget, Htriple in Hok.
  eexists _, _. split; [exact Hok|].
  split; [lookup_literal; reflexivity|]. split.
  - rewrite constants_of_without_libcxx by (intros (p & [=] & _)).
    rewrite !dom_insert_L, dom_empty_L. apply three_keys.
  - apply constants_of_common_flags.
Qed.

(** C10: the static list starts with role [c], tool [clang], which is
    no alias; so on every host the loop ends with the compiler's path
    set, the probe for [ld-classic] next to it yields the linker flags,
    and a call either returns or raises [KeyError], nothing else. *)
Theorem C10_probe_has_compiler_path host machine sdk_prefix native_machine
    is_cross_build call_selected_meson cfg sdk_name :
  (head APPLE_BINARIES = Some (mkBinary "c" "clang" [])
   /\ Py.startswith "#" "clang" = false)
  /\ (exists (b : Section_) (clang : Path) (linker_flags : list string),
        resolve_binaries host sdk_name (∅, None) APPLE_BINARIES
        = inr (b, Some clang)
        /\ clang = PurePath.of_str (tool_path host sdk_name "clang")
        /\ linker_flags_of host (Some clang) = inr linker_flags)
  /\ exists cfg',
       init_machine_config strv_to_meson host machine sdk_prefix
         native_machine is_cross_build call_selected_meson cfg
       = (cfg', inr ([], ∅))
       \/ exists key : string,
            init_machine_config strv_to_meson host machine sdk_prefix
              native_machine is_cross_build call_selected_meson cfg
            = (cfg', inl (KeyError key)).
Proof.
  split; [split; reflexivity|]. split.
  - destruct (resolve_binaries_APPLE_BINARIES host sdk_name)
      as (b & Hb & _).
    exists b, (PurePath.of_str (tool_path host sdk_name "clang")).
    unfold linker_flags_of. destruct (path_exists host _); eauto.
  - destruct (APPLE_SDKS !! os_dash_config machine) as [sdk|] eqn:Hsdk.
    + destruct (APPLE_MINIMUM_OS_VERSIONS !! os machine) as [fallback|]
        eqn:Hos.
      * destruct (init_machine_config_returns strv_to_meson Callable host
                    machine sdk_prefix native_machine is_cross_build
                    call_selected_meson cfg sdk fallback Hsdk Hos)
          as (b & lf & _ & _ & Hok).
        eexists. left. exact Hok.
      * destruct (init_machine_config_no_minver strv_to_meson Callable host
                    machine sdk_prefix native_machine is_cross_build
                    call_selected_meson cfg sdk Hsdk Hos)
          as (b & cp & _ & Hfail).
        eexists. right. eexists. exact Hfail.
    + eexists. right. eexists.
      apply init_machine_config_no_sdk. exact Hsdk.
Qed.

End Claims.

(** * The claims on the concrete host *)

(** What the call leaves and returns for [macos], [arm64], no overlay. *)
Lemma run_macos_arm64 :
  run_on_xcode_host macos_arm64 None ∅
  = ((run_on_xcode_host macos_arm64 None ∅).1, inr ([], ∅)).
Proof.
  apply init_machine_config_returns_pair
    with (sdk_name := "macosx") (fallback := "10.9");
    vm_compute; reflexivity.
Qed.

(** The same for the iOS simulator with the overlay. *)
Lemma run_ios_simulator_overlay :
  run_on_xcode_host ios_arm64_simulator (Some overlay) ∅
  = ((run_on_xcode_host ios_arm64_simulator (Some overlay) ∅).1,
     inr ([], ∅)).
Proof.
  apply init_machine_config_returns_pair
    with (sdk_name := "iphonesimulator") (fallback := "8.0");
    vm_compute; reflexivity.
Qed.

(** C1 fails as stated: without an overlay the constants section has no
    [cxx_like_flags], and [cpp_args] and [objcpp_args] still name it. *)
Lemma C1_counterexample :
  (run_on_xcode_host macos_arm64 None ∅).2 = inr ([], ∅)
  /\ option_of (run_on_xcode_host macos_arm64 None ∅).1
       "constants" "cxx_like_flags" = None
  /\ operands <$> option_of (run_on_xcode_host macos_arm64 None ∅).1
                    "built-in options" "cpp_args"
     = Some ["c_like_flags"; "cxx_like_flags"]
  /\ operands <$> option_of (run_on_xcode_host macos_arm64 None ∅).1
                    "built-in options" "objcpp_args"
     = Some ["c_like_flags"; "cxx_like_flags"]
  /\ operands <$> option_of (run_on_xcode_host macos_arm64 None ∅).1
                    "built-in options" "cpp_args"
     <> Some ["c_like_flags"].
Proof.
  vm_compute. repeat split; try reflexivity. discriminate.
Qed.

Lemma C1_witness :
  option_of (run_on_xcode_host macos_arm64 None ∅).1
    "built-in options" "cpp_args"
  = Some "c_like_flags + cxx_like_flags"
  /\ option_of (run_on_xcode_host macos_arm64 None ∅).1
       "built-in options" "objcpp_args"
     = Some "c_like_flags + cxx_like_flags"
  /\ operands "c_like_flags + cxx_like_flags"
     = ["c_like_flags"; "cxx_like_flags"].
Proof.
  apply (C1_cpp_args_is_fixed meson_array unit xcode_host macos_arm64 None
           macos_arm64 false tt ∅ _ ([], ∅)).
  exact run_macos_arm64.
Defined.

Lemma C2_witness :
  exists constants : Section_,
    (run_on_xcode_host ios_arm64_simulator (Some overlay) ∅).1
      !! "constants" = Some constants
    /\ (is_Some (constants !! "cxx_like_flags")
        /\ is_Some (constants !! "cxx_link_flags")
        <-> overlay_has_libcxx xcode_host ios_arm64_simulator
              (Some overlay))
    /\ (~ overlay_has_libcxx xcode_host ios_arm64_simulator (Some overlay) ->
        constants !! "cxx_like_flags" = None
        /\ constants !! "cxx_link_flags" = None).
Proof.
  apply (C2_cxx_constants_iff_overlay meson_array unit xcode_host
           ios_arm64_simulator (Some overlay) ios_arm64_simulator false tt
           ∅ _ ([], ∅)).
  exact run_ios_simulator_overlay.
Defined.

(** C3 fails as stated: on an empty sink the call that returns leaves
    three sections, not four. *)
Lemma C3_counterexample :
  (run_on_xcode_host macos_arm64 None ∅).2 = inr ([], ∅)
  /\ size (run_on_xcode_host macos_arm64 None ∅).1 = 3
  /\ size (run_on_xcode_host ios_arm64_simulator (Some overlay) ∅).1 = 3
  /\ size (run_on_xcode_host macos_arm64 None ∅).1 <> 4.
Proof.
  vm_compute. repeat split; try reflexivity. discriminate.
Qed.

Lemma C3_witness :
  ([], ∅) = ([] : list string, ∅ : gmap string string)
  /\ dom (run_on_xcode_host macos_arm64 None ∅).1
     = ({["binaries"; "constants"; "built-in options"]} : gset string)
       ∪ dom (∅ : ConfigParser)
  /\ (run_on_xcode_host macos_arm64 None ∅).1 !! "built-in options"
     = Some built_in_options
  /\ (forall name : string,
        name <> "binaries" -> name <> "constants" ->
        name <> "built-in options" ->
        (run_on_xcode_host macos_arm64 None ∅).1 !! name
        = (∅ : ConfigParser) !! name).
Proof.
  apply (C3_three_sections_and_empty_pair meson_array unit xcode_host
           macos_arm64 None macos_arm64 false tt ∅ _ ([], ∅)).
  exact run_macos_arm64.
Defined.

(** C4 fails as stated: what is recorded for [ar] is the printed list
    and not the bare path; what is recorded for [cpp] has the flag
    inside the list and the composition token after it, where the
    space-joined reading puts the token before the flag. *)
Lemma C4_counterexample :
  (In (mkBinary "ar" "ar" []) APPLE_BINARIES
   /\ In (mkBinary "cpp" "clang++" [["-stdlib=libc++"]]) APPLE_BINARIES)
  /\ (option_of (run_on_xcode_host macos_arm64 None ∅).1 "binaries" "ar"
      = Some "['/usr/bin/ar']"
      /\ space_joined_invocation (tool_path xcode_host "macosx" "ar")
           (mkBinary "ar" "ar" [])
         = "/usr/bin/ar"
      /\ "['/usr/bin/ar']" <> "/usr/bin/ar")
  /\ (option_of (run_on_xcode_host macos_arm64 None ∅).1 "binaries" "cpp"
      = Some "['/usr/bin/clang++', '-stdlib=libc++'] + common_flags"
      /\ space_joined_invocation (tool_path xcode_host "macosx" "clang++")
           (mkBinary "cpp" "clang++" [["-stdlib=libc++"]])
         = "/usr/bin/clang++ + common_flags -stdlib=libc++"
      /\ "['/usr/bin/clang++', '-stdlib=libc++'] + common_flags"
         <> "/usr/bin/clang++ + common_flags -stdlib=libc++").
Proof.
  split; [split; cbn [In APPLE_BINARIES]; tauto|].
  vm_compute. repeat split; try reflexivity; discriminate.
Qed.

Lemma C4_witness :
  exists cfg' outcome,
    run_on_xcode_host macos_arm64 None ∅ = (cfg', outcome)
    /\ option_of cfg' "binaries" "strip"
       = Some (Py.str_list [tool_path xcode_host "macosx" "strip"; "-Sx"]).
Proof.
  apply (C4_invocation_is_printed_list meson_array unit xcode_host
           macos_arm64 None macos_arm64 false tt ∅ "macosx"
           (mkBinary "strip" "strip" [["-Sx"]])).
  - vm_compute. reflexivity.
  - cbn [In APPLE_BINARIES]. tauto.
  - reflexivity.
Defined.

Lemma C5_witness :
  run_on_xcode_host linux_x86_64 None ∅ = (∅, inl (KeyError "linux"))
  /\ exists (b : Section_) (clang_path : option Path),
       resolve_binaries xcode_host "iphonesimulator" (∅, None)
         APPLE_BINARIES = inr (b, clang_path)
       /\ run_on_xcode_host ios_simulator_as_os None ∅
          = (<["binaries" := b]> ∅, inl (KeyError "ios-simulator")).
Proof.
  split.
  - apply (proj1 (C5_lookup_failures meson_array unit xcode_host
                    linux_x86_64 None linux_x86_64 false tt ∅)).
    vm_compute. reflexivity.
  - apply (proj2 (C5_lookup_failures meson_array unit xcode_host
                    ios_simulator_as_os None ios_simulator_as_os false tt ∅)
             "iphonesimulator").
    + vm_compute. reflexivity.
    + vm_compute. reflexivity.
Defined.

Lemma C6_witness :
  is_Some (APPLE_MINIMUM_OS_VERSIONS !! os_component "ios-simulator")
  /\ exists os_minver,
       minimum_os_version ios_arm64_simulator = inr os_minver.
Proof.
  split.
  - apply (proj1 C6_sdk_keys_have_minimum_version).
    exists "iphonesimulator". vm_compute. reflexivity.
  - apply (proj2 C6_sdk_keys_have_minimum_version).
    + exists "iphonesimulator". vm_compute. reflexivity.
    + vm_compute. reflexivity.
Defined.

Lemma C7_witness :
  (forall os_minver : string,
     exists tail_ : string,
       target_triple macos_arm64 os_minver = "arm64" +:+ "-apple-" +:+ tail_)
  /\ exists (tail_ sdk_path : string),
       option_of (run_on_xcode_host macos_arm64 None ∅).1
         "constants" "common_flags"
       = Some (meson_array
                 ["-target"; "arm64" +:+ "-apple-" +:+ tail_;
                  "-isysroot"; sdk_path]).
Proof.
  apply (C7_unaliased_arch_leads_triple meson_array unit xcode_host
           macos_arm64 None macos_arm64 false tt ∅ _ ([], ∅)).
  - vm_compute. reflexivity.
  - exact run_macos_arm64.
Defined.

Lemma C8_witness :
  exists cfg' outcome (b : Section_) (c_val cpp_val : string),
    run_on_xcode_host ios_simulator_as_os None ∅ = (cfg', outcome)
    /\ cfg' !! "binaries" = Some b
    /\ b !! "c" = Some c_val /\ b !! "objc" = Some c_val
    /\ b !! "cpp" = Some cpp_val /\ b !! "objcpp" = Some cpp_val.
Proof.
  apply (C8_alias_roles_copy meson_array unit xcode_host
           ios_simulator_as_os None ios_simulator_as_os false tt ∅
           "iphonesimulator").
  vm_compute. reflexivity.
Defined.

(** * More of the resolver *)

(** ** The loop on any list of entries *)

Section LoopInGeneral.

Variable host : Host.
Variable sdk_name : string.

Lemma resolve_binaries_app (st : Section_ * option Path)
    (l1 l2 : list binary) :
  resolve_binaries host sdk_name st (l1 ++ l2)
  = resolve_binaries host sdk_name st l1
      ≫= fun st' => resolve_binaries host sdk_name st' l2.
Proof.
  revert st. induction l1 as [|e l1 IH]; intros st; [reflexivity|].
  cbn [app resolve_binaries].
  destruct (resolve_binary host sdk_name st e) as [err|st']; [reflexivity|].
  cbn [mbind exn_bind]. apply IH.
Qed.

Lemma existsb_eqb_In (name : string) (known : list string) :
  existsb (String.eqb name) known = true -> In name known.
Proof.
  intros Hex. apply existsb_exists in Hex as (k & Hin & Heq).
  apply String.eqb_eq in Heq. subst k. exact Hin.
Qed.

(** X2: on a list that keeps the ordering rule, started from a
    dictionary that has the roles taken as known, the loop does not
    raise; the roles it leaves are those it started with and those the
    list declares; a compiler path that was set stays set. *)
Theorem resolve_binaries_on_ordered_list (known : list string)
    (entries : list binary) (b : Section_) (cp : option Path) :
  aliases_follow_roles known entries = true ->
  (forall k : string, In k known -> is_Some (b !! k)) ->
  exists (b' : Section_) (cp' : option Path),
    resolve_binaries host sdk_name (b, cp) entries = inr (b', cp')
    /\ (forall k : string,
          is_Some (b' !! k)
          <-> is_Some (b !! k) \/ In k (map identifier entries))
    /\ (is_Some cp -> is_Some cp').
Proof.
  revert known b cp.
  induction entries as [|e entries IH]; intros known b cp Hord Hknown.
  - exists b, cp. split; [reflexivity|]. split; [|auto].
    intros k. cbn [map In]. tauto.
  - cbn [aliases_follow_roles] in Hord.
    apply andb_prop in Hord as [Hhead Htail].
    assert (exists (v : string) (cp1 : option Path),
              resolve_binary host sdk_name (b, cp) e
              = inr (<[identifier e := v]> b, cp1)
              /\ (is_Some cp -> is_Some cp1)) as (v & cp1 & Hstep & Hcp).
    { destruct (Py.startswith "#" (tool_name e)) eqn:Halias.
      - apply existsb_eqb_In in Hhead.
        destruct (Hknown _ Hhead) as [v Hv].
        exists v, cp. split; [|auto].
        apply resolve_binary_alias; assumption.
      - eexists _, _. split; [apply resolve_binary_tool; exact Halias|].
        intros Hsome. destruct (String.eqb (tool_name e) "clang"); eauto. }
    destruct (IH (identifier e :: known) (<[identifier e := v]> b) cp1 Htail)
      as (b' & cp' & Hrest & Hkeys & Hcp').
    { intros k [<-|Hin].
      - rewrite lookup_insert_eq. eauto.
      - rewrite lookup_insert_is_Some. destruct (decide (identifier e = k));
          [left; assumption | right; split; [assumption|auto]]. }
    exists b', cp'. split; [|split].
    + cbn [resolve_binaries]. rewrite Hstep. exact Hrest.
    + intros k. rewrite Hkeys, lookup_insert_is_Some. cbn [map In].
      destruct (decide (identifier e = k)) as [Heq|Hne]; [tauto|].
      split; [|tauto]. intros [[?|[_ ?]]|?]; tauto.
    + tauto.
Qed.

(** X3: an alias whose role the entries before it have not recorded
    makes the loop raise [KeyError] with that role, whatever follows. *)
Theorem resolve_binaries_alias_before_role (st : Section_ * option Path)
    (before after : list binary) (e : binary) (b : Section_)
    (cp : option Path) :
  resolve_binaries host sdk_name st before = inr (b, cp) ->
  Py.startswith "#" (tool_name e) = true ->
  b !! Py.tail (tool_name e) = None ->
  resolve_binaries host sdk_name st (before ++ e :: after)
  = inl (KeyError (Py.tail (tool_name e))).
Proof.
  intros Hbefore Halias Hmissing.
  rewrite resolve_binaries_app, Hbefore. cbn [mbind exn_bind resolve_binaries].
  unfold resolve_binary. rewrite Halias, (getitem_None _ _ Hmissing).
  reflexivity.
Qed.

End LoopInGeneral.

(** The static list keeps the ordering rule. *)
Lemma APPLE_BINARIES_ordered : aliases_follow_roles [] APPLE_BINARIES = true.
Proof. vm_compute. reflexivity. Qed.

Lemma resolve_binaries_on_ordered_list_witness :
  exists (b' : Section_) (cp' : option Path),
    resolve_binaries xcode_host "macosx" (∅, None) APPLE_BINARIES
    = inr (b', cp')
    /\ (forall k : string,
          is_Some (b' !! k)
          <-> is_Some ((∅ : Section_) !! k)
              \/ In k (map identifier APPLE_BINARIES))
    /\ (is_Some (None : option Path) -> is_Some cp').
Proof.
  apply (resolve_binaries_on_ordered_list xcode_host "macosx" []
           APPLE_BINARIES ∅ None).
  - vm_compute. reflexivity.
  - intros k Hin. destruct Hin.
Defined.

Lemma resolve_binaries_alias_before_role_witness :
  resolve_binaries xcode_host "macosx" (∅, None)
    ([mkBinary "cpp" "clang++" [["-stdlib=libc++"]]]
       ++ mkBinary "objc" "#c" [] :: [mkBinary "c" "clang" []])
  = inl (KeyError "c").
Proof.
  apply (resolve_binaries_alias_before_role xcode_host "macosx" (∅, None)
           [mkBinary "cpp" "clang++" [["-stdlib=libc++"]]]
           [mkBinary "c" "clang" []] (mkBinary "objc" "#c" [])
           (<["cpp" := Py.str_list [tool_path xcode_host "macosx" "clang++";
                                   "-stdlib=libc++"]
                      +:+ " + common_flags"]> ∅) None).
  - reflexivity.
  - reflexivity.
  - cbn [Py.tail tool_name]. rewrite lookup_insert_ne by discriminate.
    apply lookup_empty.
Defined.

(** ** A call and the sink it is given *)

Section CallsAndSinks.

Variable strv_to_meson : list string -> string.
Variable Callable : Type.

Implicit Types (host : Host) (machine native_machine : MachineSpec).
Implicit Types (sdk_prefix : option Path) (is_cross_build : bool).
Implicit Types (call_selected_meson : Callable) (cfg : ConfigParser).

(** What a call does to any sink: nothing, or the binaries section set,
    or the three sections set; which of the three, and with what, does
    not depend on the sink. *)
Lemma init_machine_config_cases host machine sdk_prefix native_machine
    is_cross_build call_selected_meson :
  (forall cfg,
     init_machine_config strv_to_meson host machine sdk_prefix
       native_machine is_cross_build call_selected_meson cfg
     = (cfg, inl (KeyError (os_dash_config machine))))
  \/ (exists b : Section_,
        forall cfg,
          init_machine_config strv_to_meson host machine sdk_prefix
            native_machine is_cross_build call_selected_meson cfg
          = (<["binaries" := b]> cfg, inl (KeyError (os machine))))
  \/ (exists b constants : Section_,
        forall cfg,
          init_machine_config strv_to_meson host machine sdk_prefix
            native_machine is_cross_build call_selected_meson cfg
          = (<["built-in options" := built_in_options]>
               (<["constants" := constants]> (<["binaries" := b]> cfg)),
             inr ([], ∅))).
Proof.
  destruct (APPLE_SDKS !! os_dash_config machine) as [sdk_name|] eqn:Hsdk.
  - destruct (resolve_binaries_APPLE_BINARIES host sdk_name)
      as (b & Hb & _).
    destruct (APPLE_MINIMUM_OS_VERSIONS !! os machine) as [fallback|]
      eqn:Hos.
    + right. right.
      destruct (init_machine_config_returns strv_to_meson Callable host
                  machine sdk_prefix native_machine is_cross_build
                  call_selected_meson ∅ sdk_name fallback Hsdk Hos)
        as (b0 & lf & Hb0 & Hlf & _).
      exists b. eexists. intros cfg.
      destruct (init_machine_config_returns strv_to_meson Callable host
                  machine sdk_prefix native_machine is_cross_build
                  call_selected_meson cfg sdk_name fallback Hsdk Hos)
        as (b1 & lf1 & Hb1 & Hlf1 & Hok).
      rewrite Hb in Hb1. injection Hb1 as <-.
      rewrite Hlf in Hlf1. injection Hlf1 as <-.
      exact Hok.
    + right. left. exists b. intros cfg.
      destruct (init_machine_config_no_minver strv_to_meson Callable host
                  machine sdk_prefix native_machine is_cross_build
                  call_selected_meson cfg sdk_name Hsdk Hos)
        as (b1 & cp & Hb1 & Hfail).
      rewrite Hb in Hb1. injection Hb1 as <- _. exact Hfail.
  - left. intros cfg. apply init_machine_config_no_sdk. exact Hsdk.
Qed.

(** X4: calling the resolver again, with the same arguments, on the
    sink a call has left changes nothing: same sink, same outcome. *)
Theorem init_machine_config_idempotent host machine sdk_prefix
    native_machine is_cross_build call_selected_meson cfg :
  init_machine_config strv_to_meson host machine sdk_prefix native_machine
    is_cross_build call_selected_meson
    (init_machine_config strv_to_meson host machine sdk_prefix
       native_machine is_cross_build call_selected_meson cfg).1
  = init_machine_config strv_to_meson host machine sdk_prefix
      native_machine is_cross_build call_selected_meson cfg.
Proof.
  destruct (init_machine_config_cases host machine sdk_prefix native_machine
              is_cross_build call_selected_meson)
    as [Hnone|[(b & Hbin)|(b & constants & Hall)]].
  - rewrite !Hnone. reflexivity.
  - rewrite !Hbin. cbn [fst]. rewrite insert_insert_eq. reflexivity.
  - rewrite !Hall. cbn [fst]. f_equal. apply map_eq. intros name.
    rewrite !lookup_insert. repeat case_decide; reflexivity.
Qed.

(** X5: what a call leaves in a sink is what it leaves in an empty
    sink, laid over the sink it was given; the outcome is the same. *)
Theorem init_machine_config_frame host machine sdk_prefix native_machine
    is_cross_build call_selected_meson cfg :
  init_machine_config strv_to_meson host machine sdk_prefix native_machine
    is_cross_build call_selected_meson cfg
  = ((init_machine_config strv_to_meson host machine sdk_prefix
        native_machine is_cross_build call_selected_meson ∅).1 ∪ cfg,
     (init_machine_config strv_to_meson host machine sdk_prefix
        native_machine is_cross_build call_selected_meson ∅).2).
Proof.
  destruct (init_machine_config_cases host machine sdk_prefix native_machine
              is_cross_build call_selected_meson)
    as [Hnone|[(b & Hbin)|(b & constants & Hall)]].
  - rewrite !Hnone. cbn [fst snd]. rewrite (left_id_L ∅ (∪)). reflexivity.
  - rewrite !Hbin. cbn [fst snd].
    rewrite <- insert_union_l, (left_id_L ∅ (∪)). reflexivity.
  - rewrite !Hall. cbn [fst snd].
    rewrite <- !insert_union_l, (left_id_L ∅ (∪)). reflexivity.
Qed.


End CallsAndSinks.

(** ** The table of minimum versions *)

(** The texts that stand before a dash of [key]. *)
Fixpoint dash_prefixes (key : string) : list string :=
  match key with
  | String c key' =>
      (if Ascii.eqb c "-" then [EmptyString] else [])
      ++ map (String c) (dash_prefixes key')
  | EmptyString => []
  end.

Lemma dash_prefixes_complete (os_ arch_ key : string) :
  os_ +:+ "-" +:+ arch_ = key -> In os_ (dash_prefixes key).
Proof.
  revert key. induction os_ as [|c os_ IH]; intros key <-.
  - change ("" +:+ "-" +:+ arch_) with (String "-" arch_).
    cbn [dash_prefixes Ascii.eqb Bool.eqb app]. left. reflexivity.
  - change (String c os_ +:+ "-" +:+ arch_)
      with (String c (os_ +:+ "-" +:+ arch_)).
    cbn [dash_prefixes]. apply in_or_app. right.
    apply in_map. apply IH. reflexivity.
Qed.

Lemma APPLE_MINIMUM_OS_VERSIONS_keys (key : string) :
  is_Some (APPLE_MINIMUM_OS_VERSIONS !! key) ->
  In key ["macos"; "macos-arm64"; "macos-arm64e"; "ios"; "watchos"; "tvos"].
Proof.
  unfold APPLE_MINIMUM_OS_VERSIONS, dict_of. cbn [foldl fst snd].
  intros [v Hv].
  repeat (rewrite lookup_insert in Hv;
          destruct (decide (_ = key)) as [<-|_]; [cbn [In]; tauto|]).
  rewrite lookup_empty in Hv. discriminate Hv.
Qed.

(** An OS-dash-arch key of the table has its OS in the table. *)
Lemma os_dash_arch_key_has_os (machine : MachineSpec) :
  is_Some (APPLE_MINIMUM_OS_VERSIONS !! os_dash_arch machine) ->
  is_Some (APPLE_MINIMUM_OS_VERSIONS !! os machine).
Proof.
  intros Hkey. apply APPLE_MINIMUM_OS_VERSIONS_keys in Hkey.
  assert (In (os machine) (dash_prefixes (os_dash_arch machine))) as Hos
    by (apply (dash_prefixes_complete _ (arch machine)); reflexivity).
  destruct machine as [os_ arch_ config_]. cbn [os] in *. cbn [In] in Hkey.
  repeat (destruct Hkey as [Hkey|Hkey];
          [rewrite <- Hkey in Hos; vm_compute in Hos;
           repeat (destruct Hos as [<-|Hos]; [eexists; vm_compute; reflexivity|]);
           contradiction|]).
  contradiction.
Qed.

(** X7: computing the default before the lookup that may not need it
    changes nothing: for every target the code's minimum version is the
    two-level lookup, OS-dash-arch first and OS alone second, and it
    raises [KeyError] with the OS exactly when neither key is there. *)
Theorem minimum_os_version_is_two_level (machine : MachineSpec) :
  minimum_os_version machine = two_level_lookup machine
  /\ (minimum_os_version machine = inl (KeyError (os machine))
      <-> APPLE_MINIMUM_OS_VERSIONS !! os_dash_arch machine = None
          /\ APPLE_MINIMUM_OS_VERSIONS !! os machine = None).
Proof.
  pose proof (os_dash_arch_key_has_os machine) as Hhas.
  unfold minimum_os_version, two_level_lookup, getitem, dict_get.
  destruct (APPLE_MINIMUM_OS_VERSIONS !! os machine) as [fallback|];
    destruct (APPLE_MINIMUM_OS_VERSIONS !! os_dash_arch machine)
      as [specific|]; cbn [mbind exn_bind default].
  - split; [reflexivity|]. split; [discriminate|]. intros [[=] _].
  - split; [reflexivity|]. split; [discriminate|]. intros [_ [=]].
  - destruct Hhas as [v [=]]. eauto.
  - split; [reflexivity|]. split; auto.
Qed.

(** ** Paths under the overlay and next to the compiler *)

Lemma div_name_parts (p : Path) (name : string) :
  PurePath.of_str name = mkPath "" [name] ->
  p </> name = mkPath (root p) (parts p ++ [name]).
Proof. intros Hname. unfold PurePath.div. rewrite Hname. reflexivity. Qed.

Lemma parent_div_name (p : Path) (name : string) :
  PurePath.of_str name = mkPath "" [name] ->
  PurePath.parent (p </> name) = mkPath (root p) (parts p).
Proof.
  intros Hname. rewrite (div_name_parts _ _ Hname).
  unfold PurePath.parent. cbn [parts root].
  rewrite removelast_last. destruct (parts p); reflexivity.
Qed.

(** The directory of the archive that is looked for is the library
    directory under the overlay. *)
Lemma parent_of_libcxx_archive (prefix : Path) :
  PurePath.parent (prefix </> "lib" </> "c++" </> "libc++.a")
  = prefix </> "lib" </> "c++".
Proof.
  rewrite parent_div_name by reflexivity.
  rewrite (div_name_parts (prefix </> "lib") "c++") by reflexivity.
  reflexivity.
Qed.

(** ** More on the constants *)

Section MoreConstants.

Variable strv_to_meson : list string -> string.
Variable Callable : Type.

Implicit Types (host : Host) (machine native_machine : MachineSpec).
Implicit Types (sdk_prefix : option Path) (is_cross_build : bool).
Implicit Types (call_selected_meson : Callable) (cfg : ConfigParser).

(** The three constants that are always there, with their values. *)
Lemma constants_of_base host machine sdk_prefix (target sdk_path : string)
    (linker_flags : list string) :
  let constants :=
    constants_of strv_to_meson host machine sdk_prefix target sdk_path
      linker_flags in
  constants !! "common_flags"
  = Some (strv_to_meson ["-target"; target; "-isysroot"; sdk_path])
  /\ constants !! "c_like_flags" = Some (strv_to_meson [])
  /\ constants !! "linker_flags" = Some (strv_to_meson linker_flags).
Proof.
  intros constants. subst constants.
  destruct (overlay_has_libcxx_dec host machine sdk_prefix) as [Hyes|Hno].
  - destruct Hyes as (prefix & -> & Hrest).
    rewrite constants_of_with_libcxx by (exists prefix; auto).
    rewrite !lookup_union_r
      by (unfold cxx_constants, dict_of; cbn [foldl fst snd];
          lookup_literal; reflexivity).
    repeat split; lookup_literal; reflexivity.
  - rewrite constants_of_without_libcxx by exact Hno.
    repeat split; lookup_literal; reflexivity.
Qed.

(** X9: an SDK overlay only adds constants. A call with an overlay
    returns exactly when the call without one returns; the binaries and
    the built-in options are the same, every constant of the call
    without overlay is there with the same value, and apart from
    [cxx_like_flags] and [cxx_link_flags] the constants are the same. *)
Theorem overlay_only_adds_constants host machine sdk_prefix native_machine
    is_cross_build call_selected_meson cfg cfg' r :
  init_machine_config strv_to_meson host machine sdk_prefix native_machine
    is_cross_build call_selected_meson cfg = (cfg', inr r) ->
  exists cfg0,
    init_machine_config strv_to_meson host machine None native_machine
      is_cross_build call_selected_meson cfg = (cfg0, inr r)
    /\ cfg0 !! "binaries" = cfg' !! "binaries"
    /\ cfg0 !! "built-in options" = cfg' !! "built-in options"
    /\ (forall name value : string,
          option_of cfg0 "constants" name = Some value ->
          option_of cfg' "constants" name = Some value)
    /\ (forall name : string,
          name <> "cxx_like_flags" -> name <> "cxx_link_flags" ->
          option_of cfg' "constants" name = option_of cfg0 "constants" name).
Proof.
  intros Hrun.
  destruct (init_machine_config_returned _ _ _ _ _ _ _ _ _ _ _ Hrun)
    as (sdk_name & fallback & Hsdk & Hos).
  destruct (init_machine_config_returns strv_to_meson Callable host machine
              sdk_prefix native_machine is_cross_build call_selected_meson
              cfg sdk_name fallback Hsdk Hos)
    as (b & lf & Hb & Hlf & Hok).
  destruct (init_machine_config_returns strv_to_meson Callable host machine
              None native_machine is_cross_build call_selected_meson
              cfg sdk_name fallback Hsdk Hos)
    as (b0 & lf0 & Hb0 & Hlf0 & Hok0).
  rewrite Hb in Hb0. injection Hb0 as <-.
  rewrite Hlf in Hlf0. injection Hlf0 as <-.
  rewrite Hok in Hrun. injection Hrun as <- <-.
  eexists. split; [exact Hok0|].
  split; [lookup_literal; symmetry; lookup_literal; reflexivity|].
  split; [lookup_literal; symmetry; lookup_literal; reflexivity|].
  unfold option_of.
  rewrite !(lookup_insert_ne _ "built-in options" "constants") by discriminate.
  rewrite !lookup_insert_eq. cbn [mbind option_bind].
  rewrite (constants_of_without_libcxx strv_to_meson host machine None)
    by (intros (p & [=] & _)).
  destruct (overlay_has_libcxx_dec host machine sdk_prefix) as [Hyes|Hno].
  - destruct Hyes as (prefix & -> & Hrest).
    rewrite constants_of_with_libcxx by (exists prefix; auto).
    assert (forall name : string,
              name <> "cxx_like_flags" -> name <> "cxx_link_flags" ->
              cxx_constants strv_to_meson prefix !! name = None) as Hcxx.
    { intros name Hlike Hlink. unfold cxx_constants, dict_of.
      cbn [foldl fst snd].
      rewrite !lookup_insert_ne by congruence. apply lookup_empty. }
    split.
    + intros name value Hbase. rewrite lookup_union_r; [exact Hbase|].
      apply Hcxx; intros ->; revert Hbase; lookup_literal; discriminate.
    + intros name Hlike Hlink. rewrite lookup_union_r; [reflexivity|].
      apply Hcxx; assumption.
  - rewrite constants_of_without_libcxx by exact Hno. split; auto.
Qed.

(** X10: the classic linker is asked for exactly when a file named
    [ld-classic] exists in the directory of the path that [xcrun] gave
    for [clang] under the target's SDK; the dead-strip flag is always
    first. *)
Theorem linker_flags_follow_ld_classic host machine sdk_prefix
    native_machine is_cross_build call_selected_meson cfg cfg' r sdk_name :
  init_machine_config strv_to_meson host machine sdk_prefix native_machine
    is_cross_build call_selected_meson cfg = (cfg', inr r) ->
  APPLE_SDKS !! os_dash_config machine = Some sdk_name ->
  option_of cfg' "constants" "linker_flags"
  = Some (strv_to_meson
            (if path_exists host
                  (PurePath.parent
                     (PurePath.of_str (tool_path host sdk_name "clang"))
                   </> "ld-classic")
             then ["-Wl,-dead_strip"; "-Wl,-ld_classic"]
             else ["-Wl,-dead_strip"])).
Proof.
  intros Hrun Hsdk.
  destruct (init_machine_config_returned _ _ _ _ _ _ _ _ _ _ _ Hrun)
    as (sdk_name' & fallback & Hsdk' & Hos).
  rewrite Hsdk in Hsdk'. injection Hsdk' as <-.
  destruct (init_machine_config_returns strv_to_meson Callable host machine
              sdk_prefix native_machine is_cross_build call_selected_meson
              cfg sdk_name fallback Hsdk Hos)
    as (b & lf & _ & Hlf & Hok).
  rewrite Hok in Hrun. injection Hrun as <- _.
  unfold option_of. lookup_literal. cbn [mbind option_bind].
  destruct (constants_of_base host machine sdk_prefix
              (target_triple machine
                 (dict_get APPLE_MINIMUM_OS_VERSIONS (os_dash_arch machine)
                    fallback))
              (sdk_path_of host sdk_name) lf) as (_ & _ & Hlinker).
  rewrite Hlinker. unfold linker_flags_of in Hlf.
  destruct (path_exists host _); injection Hlf as <-; reflexivity.
Qed.

(** X11: when the overlay's static C++ runtime is used, the include
    directory handed to the compiler is [include/c++] under the overlay,
    and the library directory handed to the linker is the directory of
    the archive [libc++.a] whose presence was tested. *)
Theorem cxx_flags_point_into_overlay host machine prefix native_machine
    is_cross_build call_selected_meson cfg cfg' r :
  init_machine_config strv_to_meson host machine (Some prefix)
    native_machine is_cross_build call_selected_meson cfg = (cfg', inr r) ->
  path_exists host (prefix </> "lib" </> "c++" </> "libc++.a") = true ->
  os machine <> "watchos" ->
  option_of cfg' "constants" "cxx_like_flags"
  = Some (strv_to_meson
            ["-nostdinc++";
             "-isystem" +:+ PurePath.to_str (prefix </> "include" </> "c++")])
  /\ option_of cfg' "constants" "cxx_link_flags"
     = Some (strv_to_meson
               ["-nostdlib++";
                "-L" +:+ PurePath.to_str
                           (PurePath.parent
                              (prefix </> "lib" </> "c++" </> "libc++.a"));
                "-lc++"; "-lc++abi"]).
Proof.
  intros Hrun Hfile Hos'.
  destruct (init_machine_config_returned _ _ _ _ _ _ _ _ _ _ _ Hrun)
    as (sdk_name & fallback & Hsdk & Hos).
  destruct (init_machine_config_returns strv_to_meson Callable host machine
              (Some prefix) native_machine is_cross_build call_selected_meson
              cfg sdk_name fallback Hsdk Hos)
    as (b & lf & _ & _ & Hok).
  rewrite constants_of_with_libcxx in Hok by (exists prefix; auto).
  rewrite Hok in Hrun. injection Hrun as <- _.
  unfold option_of.
  rewrite !(lookup_insert_ne _ "built-in options" "constants") by discriminate.
  rewrite !lookup_insert_eq. cbn [mbind option_bind].
  rewrite parent_of_libcxx_archive.
  split; apply lookup_union_Some_l; unfold cxx_constants, dict_of;
    cbn [foldl fst snd]; lookup_literal; reflexivity.
Qed.

End MoreConstants.

(** ** What the resolver asks the host *)

Section Asking.

Variable strv_to_meson : list string -> string.
Variable Callable : Type.

Implicit Types (host : Host) (machine native_machine : MachineSpec).
Implicit Types (sdk_prefix : option Path) (is_cross_build : bool).
Implicit Types (call_selected_meson : Callable) (cfg : ConfigParser).

(** The loop looks at the host only through the tool locator, at the
    tool names of the entries that are no alias. *)
Lemma resolve_binaries_same_answers host1 host2 (sdk_name : string)
    (entries : list binary) (st : Section_ * option Path) :
  (forall e : binary,
     In e entries -> Py.startswith "#" (tool_name e) = false ->
     xcrun_find host1 sdk_name (tool_name e)
     = xcrun_find host2 sdk_name (tool_name e)) ->
  resolve_binaries host1 sdk_name st entries
  = resolve_binaries host2 sdk_name st entries.
Proof.
  revert st. induction entries as [|e entries IH]; intros st Hsame;
    [reflexivity|].
  cbn [resolve_binaries].
  assert (resolve_binary host1 sdk_name st e
          = resolve_binary host2 sdk_name st e) as ->.
  { destruct st as [b cp]. unfold resolve_binary, tool_path.
    destruct (Py.startswith "#" (tool_name e)) eqn:Halias; [reflexivity|].
    rewrite (Hsame e (or_introl eq_refl) Halias). reflexivity. }
  destruct (resolve_binary host2 sdk_name st e) as [err|st'];
    [reflexivity|].
  cbn [mbind exn_bind]. apply IH.
  intros e' Hin. apply Hsame. right. exact Hin.
Qed.

(** X1: a call that gets past SDK identification leaves a binaries
    section whose roles are exactly the thirteen of the static list. *)
Theorem binaries_section_roles host machine sdk_prefix native_machine
    is_cross_build call_selected_meson cfg sdk_name :
  APPLE_SDKS !! os_dash_config machine = Some sdk_name ->
  exists cfg' outcome (b : Section_),
    init_machine_config strv_to_meson host machine sdk_prefix native_machine
      is_cross_build call_selected_meson cfg = (cfg', outcome)
    /\ cfg' !! "binaries" = Some b
    /\ forall role : string,
         is_Some (b !! role)
         <-> In role ["c"; "cpp"; "objc"; "objcpp"; "ar"; "nm"; "ranlib";
                      "strip"; "libtool"; "install_name_tool"; "otool";
                      "codesign"; "lipo"].
Proof.
  intros Hsdk.
  destruct (resolve_binaries_on_ordered_list host sdk_name [] APPLE_BINARIES
              ∅ None APPLE_BINARIES_ordered)
    as (b & cp & Hb & Hkeys & _); [intros k []|].
  assert (forall role : string,
            is_Some (b !! role)
            <-> In role ["c"; "cpp"; "objc"; "objcpp"; "ar"; "nm"; "ranlib";
                         "strip"; "libtool"; "install_name_tool"; "otool";
                         "codesign"; "lipo"]) as Hroles.
  { intros role. rewrite Hkeys, lookup_empty.
    change (map identifier APPLE_BINARIES)
      with ["c"; "cpp"; "objc"; "objcpp"; "ar"; "nm"; "ranlib";
            "strip"; "libtool"; "install_name_tool"; "otool";
            "codesign"; "lipo"].
    split; [intros [[v [=]]|Hin]; exact Hin | auto]. }
  destruct (APPLE_MINIMUM_OS_VERSIONS !! os machine) as [fallback|] eqn:Hos.
  - destruct (init_machine_config_returns strv_to_meson Callable host
                machine sdk_prefix native_machine is_cross_build
                call_selected_meson cfg sdk_name fallback Hsdk Hos)
      as (b' & lf & Hb' & _ & Hok).
    rewrite Hb in Hb'. injection Hb' as <- _.
    eexists _, _, b. split; [exact Hok|].
    split; [lookup_literal; reflexivity | exact Hroles].
  - destruct (init_machine_config_no_minver strv_to_meson Callable host
                machine sdk_prefix native_machine is_cross_build
                call_selected_meson cfg sdk_name Hsdk Hos)
      as (b' & cp' & Hb' & Hfail).
    rewrite Hb in Hb'. injection Hb' as <- _.
    eexists _, _, b. split; [exact Hfail|].
    split; [lookup_literal; reflexivity | exact Hroles].
Qed.

(** X8: two hosts that answer alike where the resolver asks give the
    same call. It asks for the SDK path of the target's SDK, for the
    tools of the entries that are no alias under that SDK, whether
    [ld-classic] exists next to the compiler, and, with an overlay,
    whether the overlay has [lib/c++/libc++.a]; nothing else of the host
    matters, an alias name is never looked up. *)
Theorem init_machine_config_same_answers host1 host2 machine sdk_prefix
    native_machine is_cross_build call_selected_meson cfg :
  (forall sdk_name : string,
     APPLE_SDKS !! os_dash_config machine = Some sdk_name ->
     xcrun_show_sdk_path host1 sdk_name = xcrun_show_sdk_path host2 sdk_name
     /\ (forall e : binary,
           In e APPLE_BINARIES -> Py.startswith "#" (tool_name e) = false ->
           xcrun_find host1 sdk_name (tool_name e)
           = xcrun_find host2 sdk_name (tool_name e))
     /\ path_exists host1
          (PurePath.parent
             (PurePath.of_str (tool_path host1 sdk_name "clang"))
           </> "ld-classic")
        = path_exists host2
            (PurePath.parent
               (PurePath.of_str (tool_path host1 sdk_name "clang"))
             </> "ld-classic")) ->
  (forall prefix : Path,
     sdk_prefix = Some prefix ->
     path_exists host1 (prefix </> "lib" </> "c++" </> "libc++.a")
     = path_exists host2 (prefix </> "lib" </> "c++" </> "libc++.a")) ->
  init_machine_config strv_to_meson host1 machine sdk_prefix native_machine
    is_cross_build call_selected_meson cfg
  = init_machine_config strv_to_meson host2 machine sdk_prefix
      native_machine is_cross_build call_selected_meson cfg.
Proof.
  intros Hhost Hoverlay.
  destruct (APPLE_SDKS !! os_dash_config machine) as [sdk_name|] eqn:Hsdk.
  - destruct (Hhost sdk_name eq_refl) as (Hpath & Htools & Hprobe).
    assert (tool_path host1 sdk_name "clang"
            = tool_path host2 sdk_name "clang") as Hclang.
    { unfold tool_path. f_equal.
      apply (Htools (mkBinary "c" "clang" []));
        [cbn [In APPLE_BINARIES]; tauto | reflexivity]. }
    pose proof (resolve_binaries_same_answers host1 host2 sdk_name
                  APPLE_BINARIES (∅, None) Htools) as Hloop.
    destruct (resolve_binaries_APPLE_BINARIES host1 sdk_name)
      as (b & Hb1 & _).
    pose proof Hb1 as Hb2. rewrite Hloop, Hclang in Hb2.
    unfold init_machine_config, mbind, run_bind, bind, lift, set_section.
    rewrite (getitem_Some _ _ _ Hsdk), Hb1, Hb2.
    destruct (minimum_os_version machine) as [err|os_minver];
      [reflexivity|].
    unfold linker_flags_of, sdk_path_of. rewrite <- Hclang, Hprobe, Hpath.
    assert (forall target sdk_path lf,
              constants_of strv_to_meson host1 machine sdk_prefix target
                sdk_path lf
              = constants_of strv_to_meson host2 machine sdk_prefix target
                  sdk_path lf) as Hconstants.
    { intros target sdk_path lf. unfold constants_of.
      destruct sdk_prefix as [prefix|]; [|reflexivity].
      rewrite (Hoverlay prefix eq_refl). reflexivity. }
    destruct (path_exists host2 _); rewrite Hconstants; reflexivity.
  - rewrite !(init_machine_config_no_sdk strv_to_meson Callable _ _ _ _ _ _
                _ Hsdk).
    reflexivity.
Qed.

End Asking.

(** ** The printed list *)

Lemma repr_char_plain (c : ascii) :
  plain_char c = true ->
  Py.repr_char Py.squote c = String c EmptyString
  /\ Ascii.eqb Py.squote c = false.
Proof.
  destruct c as [[] [] [] [] [] [] [] []]; vm_compute; intros Hplain;
    try discriminate Hplain; split; reflexivity.
Qed.

Lemma repr_plain (s : string) :
  plain s = true -> Py.repr s = "'" +:+ s +:+ "'".
Proof.
  intros Hplain.
  assert (Py.repr_body Py.squote s = s /\ Py.contains Py.squote s = false)
    as [Hbody Hquote].
  { induction s as [|c s IH]; [split; reflexivity|].
    cbn [plain] in Hplain. apply andb_prop in Hplain as [Hc Hs].
    destruct (repr_char_plain c Hc) as [Hchar Hne].
    destruct (IH Hs) as [Hbody Hquote]. split.
    - change (Py.repr_body Py.squote (String c s))
        with (Py.repr_char Py.squote c +:+ Py.repr_body Py.squote s).
      rewrite Hchar, Hbody. reflexivity.
    - change (Py.contains Py.squote (String c s))
        with (if Ascii.eqb Py.squote c then true
              else Py.contains Py.squote s).
      rewrite Hne. exact Hquote. }
  unfold Py.repr. rewrite Hquote. cbn [andb]. rewrite Hbody. reflexivity.
Qed.

(** X13: for a path and flags made of printable characters with no
    single quote and no backslash, what [str] prints for the list is
    the bracketed list of the elements, each between single quotes,
    separated by a comma and a space. *)
Theorem str_list_of_plain (argv : list string) :
  forallb plain argv = true ->
  Py.str_list argv
  = "[" +:+ String.concat ", " (map (fun s => "'" +:+ s +:+ "'") argv)
    +:+ "]".
Proof.
  intros Hplain. unfold Py.str_list. do 3 f_equal.
  induction argv as [|s argv IH]; [reflexivity|].
  cbn [forallb] in Hplain. apply andb_prop in Hplain as [Hs Hargv].
  cbn [map]. rewrite (repr_plain s Hs), (IH Hargv). reflexivity.
Qed.

Lemma str_list_of_plain_witness :
  Py.str_list ["/usr/bin/strip"; "-Sx"]
  = "[" +:+ String.concat ", "
              (map (fun s => "'" +:+ s +:+ "'") ["/usr/bin/strip"; "-Sx"])
    +:+ "]".
Proof.
  apply (str_list_of_plain ["/usr/bin/strip"; "-Sx"]).
  vm_compute. reflexivity.
Defined.

(** A path with a single quote is printed between double quotes. *)
Example str_list_with_single_quote :
  Py.str_list ["/Users/o'neil/clang"]
  = "[" +:+ String Py.dquote ("/Users/o'neil/clang" +:+ String Py.dquote "]").
Proof. reflexivity. Qed.

(** ** Names and what they name *)

Section Names.

Variable strv_to_meson : list string -> string.
Variable Callable : Type.

Implicit Types (host : Host) (machine native_machine : MachineSpec).
Implicit Types (sdk_prefix : option Path) (is_cross_build : bool).
Implicit Types (call_selected_meson : Callable) (cfg : ConfigParser).

(** The constants each built-in option names. *)
Lemma built_in_options_operands (opt expr name : string) :
  built_in_options !! opt = Some expr ->
  In name (operands expr) ->
  opt = "b_lundef"
  \/ (In opt ["c_args"; "objc_args"; "c_link_args"; "objc_link_args"]
      /\ In name ["c_like_flags"; "linker_flags"])
  \/ (In opt ["cpp_args"; "objcpp_args"; "cpp_link_args";
              "objcpp_link_args"]
      /\ In name ["c_like_flags"; "linker_flags"; "cxx_like_flags";
                  "cxx_link_flags"]).
Proof.
  unfold built_in_options, dict_of. cbn [foldl fst snd]. intros Hopt Hname.
  repeat (rewrite lookup_insert in Hopt;
          destruct (decide (_ = opt)) as [<-|_];
          [injection Hopt as <-; vm_compute in Hname; cbn [In]; tauto|]).
  rewrite lookup_empty in Hopt. discriminate Hopt.
Qed.

(** X12: after a call that returns, every constant named by the options
    of the C and Objective-C languages is a key of the constants
    section; when the overlay's static C++ runtime is used, so is every
    constant named by any option other than [b_lundef]. *)
Theorem built_in_options_name_constants host machine sdk_prefix
    native_machine is_cross_build call_selected_meson cfg cfg' r :
  init_machine_config strv_to_meson host machine sdk_prefix native_machine
    is_cross_build call_selected_meson cfg = (cfg', inr r) ->
  (forall opt expr name : string,
     In opt ["c_args"; "objc_args"; "c_link_args"; "objc_link_args"] ->
     option_of cfg' "built-in options" opt = Some expr ->
     In name (operands expr) ->
     is_Some (option_of cfg' "constants" name))
  /\ (overlay_has_libcxx host machine sdk_prefix ->
      forall opt expr name : string,
        opt <> "b_lundef" ->
        option_of cfg' "built-in options" opt = Some expr ->
        In name (operands expr) ->
        is_Some (option_of cfg' "constants" name)).
Proof.
  intros Hrun.
  destruct (init_machine_config_returned _ _ _ _ _ _ _ _ _ _ _ Hrun)
    as (sdk_name & fallback & Hsdk & Hos).
  destruct (init_machine_config_returns strv_to_meson Callable host machine
              sdk_prefix native_machine is_cross_build call_selected_meson
              cfg sdk_name fallback Hsdk Hos)
    as (b & lf & _ & _ & Hok).
  rewrite Hok in Hrun. injection Hrun as <- _.
  set (constants := constants_of _ _ _ _ _ _ _).
  destruct (constants_of_base strv_to_meson host machine sdk_prefix
              (target_triple machine
                 (dict_get APPLE_MINIMUM_OS_VERSIONS (os_dash_arch machine)
                    fallback))
              (sdk_path_of host sdk_name) lf) as (_ & Hclike & Hlinker).
  fold constants in Hclike, Hlinker.
  assert (forall opt expr : string,
            option_of
              (<["built-in options" := built_in_options]>
                 (<["constants" := constants]> (<["binaries" := b]> cfg)))
              "built-in options" opt = Some expr ->
            built_in_options !! opt = Some expr) as Hopts.
  { intros opt expr. unfold option_of. rewrite lookup_insert_eq. auto. }
  assert (forall name : string,
            is_Some (constants !! name) ->
            is_Some
              (option_of
                 (<["built-in options" := built_in_options]>
                    (<["constants" := constants]> (<["binaries" := b]> cfg)))
                 "constants" name)) as Hconst.
  { intros name. unfold option_of.
    rewrite lookup_insert_ne by discriminate. rewrite lookup_insert_eq.
    auto. }
  split.
  - intros opt expr name Hin Hopt Hname. apply Hconst.
    destruct (built_in_options_operands opt expr name (Hopts _ _ Hopt) Hname)
      as [->|[[_ Hn]|[Hin' _]]].
    + cbn [In] in Hin. repeat (destruct Hin as [[=]|Hin]). contradiction.
    + cbn [In] in Hn. destruct Hn as [<-|[<-|[]]]; eauto.
    + exfalso. cbn [In] in Hin, Hin'.
      repeat (destruct Hin as [<-|Hin]; [
        repeat (destruct Hin' as [[=]|Hin']); contradiction|]).
      contradiction.
  - intros Hoverlay opt expr name Hne Hopt Hname. apply Hconst.
    destruct (constants_of_cxx strv_to_meson host machine sdk_prefix
                (target_triple machine
                   (dict_get APPLE_MINIMUM_OS_VERSIONS
                      (os_dash_arch machine) fallback))
                (sdk_path_of host sdk_name) lf)
      as [(_ & Hlike & Hlink)|(Hno & _)]; [|contradiction].
    fold constants in Hlike, Hlink.
    destruct (built_in_options_operands opt expr name (Hopts _ _ Hopt) Hname)
      as [->|[[_ Hn]|[_ Hn]]]; [contradiction| |];
      cbn [In] in Hn;
      repeat (destruct Hn as [<-|Hn]; [eauto|]); contradiction.
Qed.

(** X14: a tool locator that prints nothing for [clang] goes unnoticed.
    The call returns all the same; the compiler roles hold a list with
    an empty path, and [ld-classic] is looked for relative to the
    working directory. *)
Theorem blank_compiler_path_goes_unnoticed host machine sdk_prefix
    native_machine is_cross_build call_selected_meson cfg sdk_name
    fallback :
  APPLE_SDKS !! os_dash_config machine = Some sdk_name ->
  APPLE_MINIMUM_OS_VERSIONS !! os machine = Some fallback ->
  tool_path host sdk_name "clang" = "" ->
  exists cfg',
    init_machine_config strv_to_meson host machine sdk_prefix native_machine
      is_cross_build call_selected_meson cfg = (cfg', inr ([], ∅))
    /\ option_of cfg' "binaries" "c" = Some "[''] + common_flags"
    /\ option_of cfg' "binaries" "objc" = Some "[''] + common_flags"
    /\ option_of cfg' "constants" "linker_flags"
       = Some (strv_to_meson
                 (if path_exists host (mkPath "" ["ld-classic"])
                  then ["-Wl,-dead_strip"; "-Wl,-ld_classic"]
                  else ["-Wl,-dead_strip"])).
Proof.
  intros Hsdk Hos Hblank.
  destruct (resolve_binaries_APPLE_BINARIES host sdk_name)
    as (b & Hb & Htools & (_ & Hobjc) & _).
  pose proof (Htools (mkBinary "c" "clang" [])) as Hc.
  cbn [In APPLE_BINARIES identifier tool_name rest
       String.eqb Ascii.eqb Bool.eqb orb] in Hc.
  rewrite Hblank in Hc.
  specialize (Hc (or_introl eq_refl) eq_refl).
  change (Py.str_list [""] +:+ " + common_flags")
    with "[''] + common_flags" in Hc.
  destruct (init_machine_config_returns strv_to_meson Callable host machine
              sdk_prefix native_machine is_cross_build call_selected_meson
              cfg sdk_name fallback Hsdk Hos)
    as (b' & lf & Hb' & Hlf & Hok).
  rewrite Hb in Hb'. injection Hb' as <-.
  eexists. split; [exact Hok|]. unfold option_of.
  split; [lookup_literal; exact Hc|].
  split; [lookup_literal; cbn [mbind option_bind]; rewrite Hobjc; exact Hc|].
  lookup_literal. cbn [mbind option_bind].
  destruct (constants_of_base strv_to_meson host machine sdk_prefix
              (target_triple machine
                 (dict_get APPLE_MINIMUM_OS_VERSIONS (os_dash_arch machine)
                    fallback))
              (sdk_path_of host sdk_name) lf) as (_ & _ & Hlinker).
  rewrite Hlinker. unfold linker_flags_of in Hlf. rewrite Hblank in Hlf.
  change (PurePath.parent (PurePath.of_str "") </> "ld-classic")
    with (mkPath "" ["ld-classic"]) in Hlf.
  destruct (path_exists host _); injection Hlf as <-; reflexivity.
Qed.

End Names.

(** ** The further properties on the concrete hosts *)

Lemma binaries_section_roles_witness :
  exists cfg' outcome (b : Section_),
    run_on_xcode_host macos_arm64 None ∅ = (cfg', outcome)
    /\ cfg' !! "binaries" = Some b
    /\ forall role : string,
         is_Some (b !! role)
         <-> In role ["c"; "cpp"; "objc"; "objcpp"; "ar"; "nm"; "ranlib";
                      "strip"; "libtool"; "install_name_tool"; "otool";
                      "codesign"; "lipo"].
Proof.
  apply (binaries_section_roles meson_array unit xcode_host macos_arm64 None
           macos_arm64 false tt ∅ "macosx").
  vm_compute. reflexivity.
Defined.

Lemma init_machine_config_same_answers_witness :
  init_machine_config meson_array xcode_host macos_arm64 (Some overlay)
    macos_arm64 false tt ∅
  = init_machine_config meson_array other_host macos_arm64 (Some overlay)
      macos_arm64 false tt ∅.
Proof.
  apply (init_machine_config_same_answers meson_array unit xcode_host
           other_host macos_arm64 (Some overlay) macos_arm64 false tt ∅).
  - intros sdk_name Hsdk. vm_compute in Hsdk. injection Hsdk as <-.
    split; [reflexivity|]. split; [|vm_compute; reflexivity].
    intros e Hin Htool. cbn [In APPLE_BINARIES] in Hin.
    repeat (destruct Hin as [<-|Hin];
            [first [discriminate Htool | reflexivity]|]).
    contradiction.
  - intros prefix [= <-]. vm_compute. reflexivity.
Defined.

Lemma overlay_only_adds_constants_witness :
  exists cfg0,
    init_machine_config meson_array xcode_host ios_arm64_simulator None
      ios_arm64_simulator false tt ∅ = (cfg0, inr ([], ∅))
    /\ cfg0 !! "binaries"
       = (run_on_xcode_host ios_arm64_simulator (Some overlay) ∅).1
           !! "binaries"
    /\ cfg0 !! "built-in options"
       = (run_on_xcode_host ios_arm64_simulator (Some overlay) ∅).1
           !! "built-in options"
    /\ (forall name value : string,
          option_of cfg0 "constants" name = Some value ->
          option_of (run_on_xcode_host ios_arm64_simulator (Some overlay) ∅).1
            "constants" name = Some value)
    /\ (forall name : string,
          name <> "cxx_like_flags" -> name <> "cxx_link_flags" ->
          option_of (run_on_xcode_host ios_arm64_simulator (Some overlay) ∅).1
            "constants" name
          = option_of cfg0 "constants" name).
Proof.
  apply (overlay_only_adds_constants meson_array unit xcode_host
           ios_arm64_simulator (Some overlay) ios_arm64_simulator false tt
           ∅ _ ([], ∅)).
  exact run_ios_simulator_overlay.
Defined.

Lemma linker_flags_follow_ld_classic_witness :
  option_of (run_on_xcode_host macos_arm64 None ∅).1
    "constants" "linker_flags"
  = Some (meson_array
            (if path_exists xcode_host
                  (PurePath.parent
                     (PurePath.of_str (tool_path xcode_host "macosx" "clang"))
                   </> "ld-classic")
             then ["-Wl,-dead_strip"; "-Wl,-ld_classic"]
             else ["-Wl,-dead_strip"])).
Proof.
  apply (linker_flags_follow_ld_classic meson_array unit xcode_host
           macos_arm64 None macos_arm64 false tt ∅ _ ([], ∅) "macosx").
  - exact run_macos_arm64.
  - vm_compute. reflexivity.
Defined.

Lemma cxx_flags_point_into_overlay_witness :
  option_of (run_on_xcode_host ios_arm64_simulator (Some overlay) ∅).1
    "constants" "cxx_like_flags"
  = Some (meson_array
            ["-nostdinc++";
             "-isystem"
             +:+ PurePath.to_str (overlay </> "include" </> "c++")])
  /\ option_of (run_on_xcode_host ios_arm64_simulator (Some overlay) ∅).1
       "constants" "cxx_link_flags"
     = Some (meson_array
               ["-nostdlib++";
                "-L" +:+ PurePath.to_str
                           (PurePath.parent
                              (overlay </> "lib" </> "c++" </> "libc++.a"));
                "-lc++"; "-lc++abi"]).
Proof.
  apply (cxx_flags_point_into_overlay meson_array unit xcode_host
           ios_arm64_simulator overlay ios_arm64_simulator false tt
           ∅ _ ([], ∅)).
  - exact run_ios_simulator_overlay.
  - vm_compute. reflexivity.
  - discriminate.
Defined.

Lemma built_in_options_name_constants_witness :
  (forall opt expr name : string,
     In opt ["c_args"; "objc_args"; "c_link_args"; "objc_link_args"] ->
     option_of (run_on_xcode_host ios_arm64_simulator (Some overlay) ∅).1
       "built-in options" opt = Some expr ->
     In name (operands expr) ->
     is_Some
       (option_of (run_on_xcode_host ios_arm64_simulator (Some overlay) ∅).1
          "constants" name))
  /\ (overlay_has_libcxx xcode_host ios_arm64_simulator (Some overlay) ->
      forall opt expr name : string,
        opt <> "b_lundef" ->
        option_of (run_on_xcode_host ios_arm64_simulator (Some overlay) ∅).1
          "built-in options" opt = Some expr ->
        In name (operands expr) ->
        is_Some
          (option_of
             (run_on_xcode_host ios_arm64_simulator (Some overlay) ∅).1
             "constants" name)).
Proof.
  apply (built_in_options_name_constants meson_array unit xcode_host
           ios_arm64_simulator (Some overlay) ios_arm64_simulator false tt
           ∅ _ ([], ∅)).
  exact run_ios_simulator_overlay.
Defined.

Lemma blank_compiler_path_goes_unnoticed_witness :
  exists cfg',
    init_machine_config meson_array silent_host macos_arm64 None
      macos_arm64 false tt ∅ = (cfg', inr ([], ∅))
    /\ option_of cfg' "binaries" "c" = Some "[''] + common_flags"
    /\ option_of cfg' "binaries" "objc" = Some "[''] + common_flags"
    /\ option_of cfg' "constants" "linker_flags"
       = Some (meson_array
                 (if path_exists silent_host (mkPath "" ["ld-classic"])
                  then ["-Wl,-dead_strip"; "-Wl,-ld_classic"]
                  else ["-Wl,-dead_strip"])).
Proof.
  apply (blank_compiler_path_goes_unnoticed meson_array unit silent_host
           macos_arm64 None macos_arm64 false tt ∅ "macosx" "10.9").
  - vm_compute. reflexivity.
  - vm_compute. reflexivity.
  - reflexivity.
Defined.
